(** * GST bill analyzer: the bill reconciliation and discrepancy engine

    A shallow embedding of [gst_bill_analyzer_gemini.py]: rate resolution
    ([get_correct_gst_rate]), the weighted tax calculation
    ([calculate_correct_gst]), the consistency checks
    ([validate_extraction]) and the assembly of the result
    ([analyze_bill], from the extracted record on).

    Numbers are Python floats, modelled by Rocq's primitive binary64
    floats; Python's exceptions are an explicit error result; the record
    that the extractor hands over is the JSON value [json.loads] built,
    with its objects as finite maps. *)

From Stdlib Require Import ZArith Floats String Ascii List Bool.
From stdpp Require Import base option gmap strings list.

Set Warnings "-inexact-float,-register-all".

(** ** Exceptions and results *)

Inductive exn : Type :=
| TypeError
| ValueError
| AttributeError
| ZeroDivisionError
| DatabaseError.

Inductive result (A : Type) : Type :=
| Ok (a : A)
| Raise (e : exn).

Arguments Ok {A} a.
Arguments Raise {A} e.

Definition bind {A B : Type} (r : result A) (k : A -> result B) : result B :=
  match r with
  | Ok a => k a
  | Raise e => Raise e
  end.

Notation "x <- r ;; k" := (bind r (fun x => k))
  (at level 100, r at next level, right associativity).

Fixpoint for_each {A B : Type} (body : A -> result B) (l : list A) : result (list B) :=
  match l with
  | [] => Ok []
  | a :: l' => b <- body a ;; bs <- for_each body l' ;; Ok (b :: bs)
  end.

(** ** Python floats *)

Module PyFloat.

Local Open Scope float_scope.

(** [a / b]: ZeroDivisionError on a zero divisor of either sign. *)
Definition div (a b : float) : result float :=
  if b =? 0 then Raise ZeroDivisionError else Ok (a / b).

(** [a > b] *)
Definition gt (a b : float) : bool := b <? a.

(** [round(x, 2)]: the exact binary value is rounded half-even to two
    decimals and the decimal result is converted back to the nearest
    float; zeros, infinities, NaN and values that are already integers
    are returned as they are. *)
Definition round2 (x : float) : float :=
  match Prim2SF x with
  | S754_finite s m e =>
      if (0 <=? e)%Z then x
      else
        let num := (Zpos m * 100)%Z in
        let den := Z.shiftl 1 (- e) in
        let q := (num / den)%Z in
        let r := (num mod den)%Z in
        let n := match (2 * r ?= den)%Z with
                 | Lt => q
                 | Gt => (q + 1)%Z
                 | Eq => if Z.even q then q else (q + 1)%Z
                 end in
        match n with
        | Zpos p =>
            SF2Prim (SFdiv prec emax (S754_finite s p 0) (S754_finite false 100 0))
        | _ => if s then -0 else 0
        end
  | _ => x
  end.

(** [sum(xs)], from the integer 0 *)
Definition sum (xs : list float) : float := fold_left add xs 0.

(** [min(a, b)] and [max(a, b)] of the builtins: the first argument is
    kept unless the second compares strictly below (above) it. *)
Definition min (a b : float) : float := if b <? a then b else a.
Definition max (a b : float) : float := if a <? b then b else a.

End PyFloat.

(** ** Strings

    A Python [str] is held as its UTF-8 encoding, a byte per [ascii],
    which is also how SQLite stores and compares it; a keyword occurs in
    a name exactly when its encoding occurs in the name's. A str with a
    lone surrogate has no encoding and is not a value of this type. *)

Module PyStr.

Local Open Scope string_scope.

Definition lower_char (c : ascii) : ascii :=
  let n := nat_of_ascii c in
  if (Nat.leb 65 n && Nat.leb n 90)%bool then ascii_of_nat (n + 32) else c.

(** Lowercasing of the letters A to Z; every other byte is kept. *)
Fixpoint ascii_lower (s : string) : string :=
  match s with
  | EmptyString => EmptyString
  | String c s' => String (lower_char c) (ascii_lower s')
  end.

(** [s.isascii()] *)
Fixpoint is_ascii (s : string) : bool :=
  match s with
  | EmptyString => true
  | String c s' => Nat.ltb (nat_of_ascii c) 128 && is_ascii s'
  end.

(** The case mapping of the interpreter's Unicode character database, as
    [str.lower] applies it to text with characters beyond ASCII. *)
Class Unicode : Type := { unicode_lower : string -> string }.

(** [s.lower()] *)
Definition lower {U : Unicode} (s : string) : string :=
  if is_ascii s then ascii_lower s else unicode_lower s.

Fixpoint startswith (p s : string) : bool :=
  match p, s with
  | EmptyString, _ => true
  | String _ _, EmptyString => false
  | String a p', String b s' => Ascii.eqb a b && startswith p' s'
  end.

(** [kw in s] *)
Fixpoint contains (kw s : string) : bool :=
  startswith kw s ||
  match s with
  | EmptyString => false
  | String _ s' => contains kw s'
  end.

End PyStr.

(** ** The rate catalog: table [gst_items] of the SQLite store *)

Record gst_item : Type := {
  row_item_name : string;               (* item_name TEXT NOT NULL *)
  row_item_category : option string;    (* item_category TEXT *)
  row_gst_rate : float;                 (* gst_rate REAL NOT NULL *)
  row_hsn_code : option string          (* hsn_code TEXT *)
}.

(** What [sqlite3.connect] and [cursor.execute] find: the rows of the
    table in scan order, or a store that raises. *)
Inductive catalog : Type :=
| CatalogUnavailable
| CatalogRows (rows : list gst_item).

Module Sql.

Local Open Scope char_scope.

(** [LOWER(text)]: SQLite folds the letters A to Z only. *)
Definition lower (text : string) : string := PyStr.ascii_lower text.

(** The text as [LIKE] reads it, up to the first zero byte. *)
Fixpoint c_string (s : string) : string :=
  match s with
  | EmptyString => EmptyString
  | String c s' => if Ascii.eqb c zero then EmptyString else String c (c_string s')
  end.

(** A character of the text is a lead byte and the continuation bytes
    (binary 10xxxxxx) after it; a byte below 0xC0 is a character of its
    own. *)
Definition is_continuation (c : ascii) : bool :=
  Nat.leb 128 (nat_of_ascii c) && Nat.ltb (nat_of_ascii c) 192.

Definition is_lead (c : ascii) : bool := Nat.leb 192 (nat_of_ascii c).

Fixpoint skip_continuation (text : string) : string :=
  match text with
  | EmptyString => EmptyString
  | String c text' => if is_continuation c then skip_continuation text' else text
  end.

(** The text after the character that starts with byte [c]. *)
Definition after_char (c : ascii) (rest : string) : string :=
  if is_lead c then skip_continuation rest else rest.

(** [%]: the rest of the pattern, [k], is tried at the text and after
    each of its characters; [skipping] holds while the continuation
    bytes of the character just passed are stepped over. *)
Fixpoint any_run (k : string -> bool) (skipping : bool) (text : string) : bool :=
  match text with
  | EmptyString => k EmptyString
  | String c text' =>
      if skipping && is_continuation c then any_run k true text'
      else k text || any_run k (is_lead c) text'
  end.

(** [text LIKE pat] of SQLite on UTF-8 text: [%] stands for any run of
    characters, [_] for one character, ASCII letters compare
    case-insensitively. A percent sign or an underscore in the item name
    is part of the pattern, as in the query of the analyzer, which does
    not escape them. *)
Fixpoint like (pat : string) : string -> bool :=
  match pat with
  | EmptyString => fun text =>
      match text with EmptyString => true | _ => false end
  | String "%" pat' => any_run (like pat') false
  | String "_" pat' => fun text =>
      match text with
      | EmptyString => false
      | String c text' => like pat' (after_char c text')
      end
  | String c pat' => fun text =>
      match text with
      | EmptyString => false
      | String d text' =>
          Ascii.eqb (PyStr.lower_char c) (PyStr.lower_char d) && like pat' text'
      end
  end.

(** LOWER(column) LIKE ? *)
Definition matches (pat column : string) : bool :=
  like (c_string pat) (c_string (lower column)).

(** WHERE LOWER(item_name) LIKE ? OR LOWER(item_category) LIKE ? *)
Definition where_clause (pat : string) (row : gst_item) : bool :=
  matches pat (row_item_name row) ||
  match row_item_category row with
  | Some cat => matches pat cat
  | None => false
  end.

(** SQLITE_MAX_LIKE_PATTERN_LENGTH: [LIKE] fails on a pattern of more
    bytes, with sqlite3.OperationalError. *)
Definition pattern_too_long (pat : string) : bool :=
  (50000 <? N.of_nat (String.length pat))%N.

(** SELECT gst_rate, hsn_code, item_category ... LIMIT 1, then
    [fetchone]. The WHERE clause is evaluated row by row, so an empty
    table never evaluates [LIKE]; on any other table a pattern that is
    too long fails at the first row. *)
Definition fetchone (rows : list gst_item) (pat : string)
  : result (option (float * option string * option string)) :=
  match rows with
  | [] => Ok None
  | _ :: _ =>
      if pattern_too_long pat then Raise DatabaseError
      else
        Ok match List.find (where_clause pat) rows with
           | Some row => Some (row_gst_rate row, row_hsn_code row, row_item_category row)
           | None => None
           end
  end.

End Sql.

(** ** Extracted records: what [json.loads] returns

    A JSON number is kept as the float that [float()] makes of it. *)

Inductive json : Type :=
| JNull
| JBool (b : bool)
| JNum (x : float)
| JStr (s : string)
| JList (l : list json)
| JObj (m : gmap string json).

(** A Python [dict] with string keys. *)
Abbreviation dict := (gmap string json).

Module Py.

Local Open Scope string_scope.

(** [d.get(key, default)] on a dict *)
Definition dict_get (d : dict) (key : string) (dflt : json) : json :=
  default dflt (d !! key).

(** [v.get(key, default)] on any value: only a dict has the method. *)
Definition get (v : json) (key : string) (dflt : json) : result json :=
  match v with
  | JObj d => Ok (dict_get d key dflt)
  | _ => Raise AttributeError
  end.

(** [v.lower()]: only a str has the method. *)
Definition lower {U : PyStr.Unicode} (v : json) : result string :=
  match v with
  | JStr s => Ok (PyStr.lower s)
  | _ => Raise AttributeError
  end.

Fixpoint chars (s : string) : list json :=
  match s with
  | EmptyString => []
  | String c s' => JStr (String c EmptyString) :: chars s'
  end.

(** [for x in v]: the elements of a list, the characters of a str, the
    keys of a dict; other values are not iterable. *)
Definition iter (v : json) : result (list json) :=
  match v with
  | JList l => Ok l
  | JStr s => Ok (chars s)
  | JObj d => Ok (JStr <$> (map_to_list d).*1)
  | _ => Raise TypeError
  end.

(** Truth value of [v], as [not v] and [if v] test it. *)
Definition truthy (v : json) : bool :=
  match v with
  | JNull => false
  | JBool b => b
  | JNum x => negb (x =? 0)%float
  | JStr s => negb (String.eqb s "")
  | JList l => match l with [] => false | _ => true end
  | JObj d => negb (bool_decide (d = ∅))
  end.

End Py.

(** ** Rate resolution *)

Definition rate_triple : Type := float * option string * option string.

Module Keywords.

Local Open Scope string_scope.

Definition dry_fruits_keywords : list string :=
  ["cashew"; "almond"; "walnut"; "dates"; "raisin"; "pistachio";
   "badam"; "kaju"; "pista"; "kishmish"; "anjeer"; "fig";
   "mixed nuts"; "mixed bites"; "dry fruit"].

Definition electronics_keywords : list string :=
  ["mobile"; "phone"; "laptop"; "computer"; "charger"; "earphone";
   "headphone"; "tv"; "television"; "ac"; "refrigerator"; "washing machine"].

Definition medical_keywords : list string :=
  ["medicine"; "tablet"; "syrup"; "injection"; "capsule";
   "test"; "pathology"; "xray"; "scan"].

Definition food_items_0_percent : list string :=
  ["parotta"; "chapati"; "roti"; "bread"; "milk"; "curd";
   "vegetables"; "fruits"; "eggs"].

Definition food_items_5_percent : list string :=
  ["dosa"; "idli"; "vada"; "rice"; "dal"; "sambar";
   "biryani"; "curry"; "meal"; "coffee"; "tea"].

End Keywords.

Section Resolver.

Import Keywords.
Local Open Scope string_scope.
Local Open Scope float_scope.

(** [for keyword in kws: if keyword in item_lower: return ret] *)
Fixpoint for_keyword (kws : list string) (item_lower : string) (ret : rate_triple)
  : option rate_triple :=
  match kws with
  | [] => None
  | keyword :: kws' =>
      if PyStr.contains keyword item_lower then Some ret
      else for_keyword kws' item_lower ret
  end.

(** The keyword cascade of [get_correct_gst_rate], after the catalog
    returned no row. *)
Definition keyword_fallback (item_lower : string) : rate_triple :=
  match for_keyword dry_fruits_keywords item_lower
          (5.0, Some "08013200", Some "Dry fruits and nuts") with
  | Some r => r
  | None =>
  match for_keyword electronics_keywords item_lower
          (18.0, None, Some "Electronics") with
  | Some r => r
  | None =>
  match for_keyword medical_keywords item_lower
          (12.0, None, Some "Medical supplies") with
  | Some r => r
  | None =>
  match for_keyword food_items_0_percent item_lower
          (0.0, None, Some "Food items (fresh)") with
  | Some r => r
  | None =>
  match for_keyword food_items_5_percent item_lower
          (5.0, None, Some "Restaurant services") with
  | Some r => r
  | None => (5.0, None, Some "Unknown (default 5%)")
  end end end end end.

Context {U : PyStr.Unicode}.

(** [sqlite3.connect(self.db_path)] and the cursor on it *)
Definition connect (db : catalog) : result (list gst_item) :=
  match db with
  | CatalogRows rows => Ok rows
  | CatalogUnavailable => Raise DatabaseError
  end.

(** The body of the [try] block of [get_correct_gst_rate]. *)
Definition get_correct_gst_rate_try (db : catalog) (item_name : json)
  : result rate_triple :=
  rows <- connect db ;;
  q <- Py.lower item_name ;;
  fetched <- Sql.fetchone rows ("%" ++ q ++ "%") ;;
  match fetched with
  | Some r => Ok r
  | None =>
      item_lower <- Py.lower item_name ;;
      Ok (keyword_fallback item_lower)
  end.

(** [get_correct_gst_rate]: every exception of the body is caught by the
    handler, which returns the fixed default. *)
Definition get_correct_gst_rate (db : catalog) (item_name : json) : rate_triple :=
  match get_correct_gst_rate_try db item_name with
  | Ok r => r
  | Raise _ => (5.0, None, Some "Unknown")
  end.

(** The resolution table as the specification words it: an ordered list
    of keyword sets with their results, first matching set wins. *)
Definition spec_keyword_table : list (list string * rate_triple) :=
  [ (dry_fruits_keywords, (5.0, Some "08013200", Some "Dry fruits and nuts"));
    (electronics_keywords, (18.0, None, Some "Electronics"));
    (medical_keywords, (12.0, None, Some "Medical supplies"));
    (food_items_0_percent, (0.0, None, Some "Food items (fresh)"));
    (food_items_5_percent, (5.0, None, Some "Restaurant services")) ].

Definition any_keyword_in (kws : list string) (item_lower : string) : bool :=
  existsb (fun keyword => PyStr.contains keyword item_lower) kws.

Definition spec_resolve (item_lower : string) : rate_triple :=
  match List.find (fun entry => any_keyword_in (fst entry) item_lower) spec_keyword_table with
  | Some entry => snd entry
  | None => (5.0, None, Some "Unknown (default 5%)")
  end.

End Resolver.

(** ** Line items and the analysis result *)

Record BillLineItem : Type := {
  item_name : json;
  original_name : json;
  quantity : float;
  unit_price : float;
  total_price : float;
  hsn_code : option string;
  gst_rate : option float;
  cgst : option float;
  sgst : option float;
  category : option string
}.

(** The warnings of [validate_extraction]: each constructor is one of its
    message templates, with the numbers the message formats. *)
Inductive warning : Type :=
| ItemsSumMismatch (items_total gross : float)
| DiscountMismatch (gross disc sub : float)
| MinorRounding (expected_subtotal sub : float)
| GrandTotalMismatch (calculated_total total : float)
| UnusualGstRate (gst_percent : float)
| StoreNameNotFound
| BillNumberNotFound.

(** The entries of [discrepancy_details], likewise by template. *)
Inductive detail : Type :=
| DiscountApplied (disc percent : float)
| ChargedButShouldBe (bill_gst calculated_gst : float)
| OverchargedBy (amount : float)
| UnderchargedBy (amount : float)
| ShouldHaveZeroGst (name : json).

(** A result as [analyze_bill] constructs it: [discrepancy_details] and
    [warnings] are the lists it passes; the class lets both default to
    None, which no path of the analyzer leaves in a result. *)
Record BillAnalysisResult : Type := {
  bill_number : json;
  restaurant_name : json;
  date : json;
  items : list BillLineItem;
  subtotal : float;
  total_gst_charged : float;
  total_cgst_charged : float;
  total_sgst_charged : float;
  grand_total : float;
  calculated_total_gst : float;
  calculated_cgst : float;
  calculated_sgst : float;
  calculated_grand_total : float;
  has_discrepancy : bool;
  discrepancy_amount : float;
  discrepancy_details : list detail;
  confidence_score : float;
  warnings : list warning;
  gross_amount : float;
  discount : float;
  gstin : json
}.

(** ** The analyzer *)

Section Analyzer.

Local Open Scope string_scope.
Local Open Scope float_scope.

(** [float(s)] on a str: the number Python parses from it, or [None]
    where it raises ValueError. *)
Variable float_of_str : string -> option float.

(** [float(v)] *)
Definition py_float (v : json) : result float :=
  match v with
  | JNum x => Ok x
  | JBool b => Ok (if b then 1 else 0)
  | JStr s =>
      match float_of_str s with
      | Some x => Ok x
      | None => Raise ValueError
      end
  | _ => Raise TypeError
  end.

(** [float(d.get(key, default))] *)
Definition get_float (d : dict) (key : string) (dflt : float) : result float :=
  py_float (Py.dict_get d key (JNum dflt)).

(** [warnings.append(w); confidence -= penalty] *)
Definition penalize (st : list warning * float) (w : warning) (penalty : float)
  : list warning * float :=
  ((fst st ++ [w])%list, snd st - penalty).

Definition valid_gst_rates : list float := [0; 5; 12; 18; 28].

Definition validate_extraction (gemini_result : dict) (items : list BillLineItem)
  : result (float * list warning) :=
  let st : list warning * float := ([], 1.0) in
  gross_amount <- get_float gemini_result "gross_amount" 0 ;;
  discount <- get_float gemini_result "discount" 0 ;;
  subtotal <- get_float gemini_result "subtotal" 0 ;;
  total_gst <- get_float gemini_result "total_gst_charged" 0 ;;
  grand_total <- get_float gemini_result "grand_total" 0 ;;
  (* Check 1 *)
  let items_total := PyFloat.sum (total_price <$> items) in
  let st :=
    if PyFloat.gt (abs (items_total - gross_amount)) 1
    then penalize st (ItemsSumMismatch items_total gross_amount) 0.15
    else st in
  (* Check 2 *)
  let expected_subtotal := gross_amount - discount in
  let tolerance := if PyFloat.gt discount 100 then 30.0 else 1.0 in
  let st :=
    if PyFloat.gt (abs (expected_subtotal - subtotal)) tolerance
    then penalize st (DiscountMismatch gross_amount discount subtotal) 0.15
    else if PyFloat.gt (abs (expected_subtotal - subtotal)) 1.0
    then penalize st (MinorRounding expected_subtotal subtotal) 0.05
    else st in
  (* Check 3 *)
  let calculated_total := subtotal + total_gst in
  let st :=
    if PyFloat.gt (abs (calculated_total - grand_total)) 1
    then penalize st (GrandTotalMismatch calculated_total grand_total) 0.20
    else st in
  (* Check 4 *)
  st <- (if PyFloat.gt subtotal 0
         then
           q <- PyFloat.div total_gst subtotal ;;
           let gst_percent := q * 100 in
           Ok (if negb (existsb (fun rate => abs (gst_percent - rate) <? 0.5)
                          valid_gst_rates)
               then penalize st (UnusualGstRate gst_percent) 0.10
               else st)
         else Ok st) ;;
  (* Check 5 *)
  let st :=
    if negb (Py.truthy (Py.dict_get gemini_result "store_name" JNull))
    then penalize st StoreNameNotFound 0.05
    else st in
  let st :=
    if negb (Py.truthy (Py.dict_get gemini_result "bill_number" JNull))
    then penalize st BillNumberNotFound 0.05
    else st in
  let confidence := PyFloat.max 0.0 (PyFloat.min 1.0 (snd st)) in
  Ok (confidence, fst st).

(** The loop of [calculate_correct_gst] that accumulates the weighted
    rate; items without a rate are skipped. *)
Fixpoint weighted_rate_loop (items : list BillLineItem) (total_item_amount : float)
    (weighted_gst_rate : float) : result float :=
  match items with
  | [] => Ok weighted_gst_rate
  | item :: rest =>
      match gst_rate item with
      | Some rate =>
          weight <- PyFloat.div (total_price item) total_item_amount ;;
          weighted_rate_loop rest total_item_amount (weighted_gst_rate + rate * weight)
      | None => weighted_rate_loop rest total_item_amount weighted_gst_rate
      end
  end.

Definition calculate_correct_gst (items : list BillLineItem)
    (subtotal_after_discount : float) : result (float * float * float) :=
  let total_item_amount := PyFloat.sum (total_price <$> items) in
  if total_item_amount =? 0 then Ok (0.0, 0.0, 0.0)
  else
    weighted_gst_rate <- weighted_rate_loop items total_item_amount 0.0 ;;
    total_gst <- PyFloat.div (subtotal_after_discount * weighted_gst_rate) 100 ;;
    cgst <- PyFloat.div total_gst 2 ;;
    sgst <- PyFloat.div total_gst 2 ;;
    Ok (PyFloat.round2 total_gst, PyFloat.round2 cgst, PyFloat.round2 sgst).

(** The catalog behind [self.db_path], and the case mapping that
    [item_name.lower()] applies. *)
Variable db : catalog.
Context {U : PyStr.Unicode}.

(** The body of the item loop of [analyze_bill] (step 4). *)
Definition build_item (item_data : json) : result BillLineItem :=
  item_name <- Py.get item_data "item_name" (JStr "") ;;
  let '(gst_rate, hsn_code, category) := get_correct_gst_rate db item_name in
  v <- Py.get item_data "total_price" (JNum 0) ;;
  total_price <- py_float v ;;
  item_gst <- PyFloat.div (total_price * gst_rate) 100 ;;
  original_name <- Py.get item_data "original_name" item_name ;;
  v <- Py.get item_data "quantity" (JNum 1) ;;
  quantity <- py_float v ;;
  v <- Py.get item_data "unit_price" (JNum 0) ;;
  unit_price <- py_float v ;;
  cgst <- PyFloat.div item_gst 2 ;;
  sgst <- PyFloat.div item_gst 2 ;;
  Ok {| item_name := item_name;
        original_name := original_name;
        quantity := quantity;
        unit_price := unit_price;
        total_price := total_price;
        hsn_code := hsn_code;
        gst_rate := Some gst_rate;
        cgst := Some (PyFloat.round2 cgst);
        sgst := Some (PyFloat.round2 sgst);
        category := category |}.

(** [item.gst_rate == 0] *)
Definition rate_is_zero (item : BillLineItem) : bool :=
  match gst_rate item with
  | Some rate => rate =? 0
  | None => false
  end.

(** [analyze_bill], from the record that the extractor returned (steps 3
    to 8). *)
Definition analyze_bill (gemini_result : dict) : result BillAnalysisResult :=
  (* Step 3 *)
  gross_amount <- get_float gemini_result "gross_amount" 0 ;;
  discount <- get_float gemini_result "discount" 0 ;;
  subtotal <- get_float gemini_result "subtotal" 0 ;;
  let gstin := Py.dict_get gemini_result "gstin" JNull in
  (* Step 4 *)
  raw_items <- Py.iter (Py.dict_get gemini_result "items" (JList [])) ;;
  items <- for_each build_item raw_items ;;
  (* Step 5 *)
  validated <- validate_extraction gemini_result items ;;
  let '(confidence_score, validation_warnings) := validated in
  (* Step 6 *)
  calculated <- calculate_correct_gst items subtotal ;;
  let '(calculated_gst, calculated_cgst, calculated_sgst) := calculated in
  let calculated_total := PyFloat.round2 (subtotal + calculated_gst) in
  (* Step 7 *)
  bill_gst <- get_float gemini_result "total_gst_charged" 0 ;;
  bill_total <- get_float gemini_result "grand_total" 0 ;;
  let discrepancy_amount := PyFloat.round2 (bill_gst - calculated_gst) in
  let has_discrepancy := PyFloat.gt (abs discrepancy_amount) 0.01 in
  let discrepancy_details :=
    if has_discrepancy
    then
      ([ ChargedButShouldBe bill_gst calculated_gst;
         if PyFloat.gt discrepancy_amount 0
         then OverchargedBy (abs discrepancy_amount)
         else UnderchargedBy (abs discrepancy_amount) ]
       ++ ((fun item => ShouldHaveZeroGst (item_name item)) <$>
           List.filter (fun item => rate_is_zero item && PyFloat.gt bill_gst 0) items))%list
    else [] in
  discrepancy_details <-
    (if PyFloat.gt discount 0
     then
       q <- PyFloat.div discount gross_amount ;;
       Ok (DiscountApplied discount (q * 100) :: discrepancy_details)
     else Ok discrepancy_details) ;;
  (* Step 8 *)
  half <- PyFloat.div bill_gst 2 ;;
  total_cgst_charged <- get_float gemini_result "cgst_charged" half ;;
  half <- PyFloat.div bill_gst 2 ;;
  total_sgst_charged <- get_float gemini_result "sgst_charged" half ;;
  Ok {| bill_number := Py.dict_get gemini_result "bill_number" JNull;
        restaurant_name := Py.dict_get gemini_result "store_name" JNull;
        date := Py.dict_get gemini_result "date" JNull;
        gstin := gstin;
        items := items;
        gross_amount := gross_amount;
        discount := discount;
        subtotal := subtotal;
        total_gst_charged := bill_gst;
        total_cgst_charged := total_cgst_charged;
        total_sgst_charged := total_sgst_charged;
        grand_total := bill_total;
        calculated_total_gst := calculated_gst;
        calculated_cgst := calculated_cgst;
        calculated_sgst := calculated_sgst;
        calculated_grand_total := calculated_total;
        has_discrepancy := has_discrepancy;
        discrepancy_amount := discrepancy_amount;
        discrepancy_details := discrepancy_details;
        confidence_score := confidence_score;
        warnings := validation_warnings |}.

End Analyzer.

(** ** The calculation as the specification words it *)

Module Spec.

Local Open Scope float_scope.

(** weighted_rate = Σ (item.total_price / total_item_value) × item.gst_rate,
    over (total_price, gst_rate) pairs *)
Definition weighted_rate (priced : list (float * float)) : float :=
  let total_item_value := PyFloat.sum (fst <$> priced) in
  fold_left (fun acc it => acc + (fst it / total_item_value) * snd it) priced 0.

End Spec.

(** ** Vocabulary of the properties *)

Definition rate_in_bounds (r : float) : bool := (0 <=? r)%float && (r <=? 100)%float.

Definition catalog_rows (db : catalog) : list gst_item :=
  match db with
  | CatalogRows rows => rows
  | CatalogUnavailable => []
  end.

(** The penalty that [validate_extraction] subtracts together with each
    warning. *)
Definition penalty_of (w : warning) : float :=
  match w with
  | ItemsSumMismatch _ _ => 0.15
  | DiscountMismatch _ _ _ => 0.15
  | MinorRounding _ _ => 0.05
  | GrandTotalMismatch _ _ => 0.20
  | UnusualGstRate _ => 0.10
  | StoreNameNotFound => 0.05
  | BillNumberNotFound => 0.05
  end%float.

Definition is_hard_discount_check (w : warning) : bool :=
  match w with DiscountMismatch _ _ _ => true | _ => false end.

Definition is_soft_discount_check (w : warning) : bool :=
  match w with MinorRounding _ _ => true | _ => false end.

Definition numeric_keys : list string :=
  ["gross_amount"; "discount"; "subtotal"; "total_gst_charged"; "grand_total"]%string.

(** The (total_price, gst_rate) pairs of resolved line items. *)
Definition priced (its : list BillLineItem) : list (float * float) :=
  (fun it => (total_price it, default 0%float (gst_rate it))) <$> its.

(** ** Sample records and catalogs *)

Module Samples.

Local Open Scope string_scope.
Local Open Scope float_scope.

(** A [float(s)] that accepts no string; the samples keep their numbers
    as JSON numbers. *)
Definition no_numeric_strings (s : string) : option float := None.

(** The case mapping for the samples. Their text is ASCII, which
    [str.lower] maps without the Unicode tables, so the mapping beyond
    ASCII is never consulted on them; it is left as the identity here
    and stands for no interpreter. *)
Definition ascii_text : PyStr.Unicode := {| PyStr.unicode_lower := fun s => s |}.

Definition empty_catalog : catalog := CatalogRows [].

(** A catalog with a malformed row. *)
Definition malformed_catalog : catalog :=
  CatalogRows [ {| row_item_name := "Gold bar";
                   row_item_category := Some "Precious metals";
                   row_gst_rate := 150;
                   row_hsn_code := Some "7108" |} ].

Definition restaurant_catalog : catalog :=
  CatalogRows [ {| row_item_name := "Restaurant service";
                   row_item_category := Some "Food and beverages";
                   row_gst_rate := 5;
                   row_hsn_code := Some "9963" |} ].

Definition line (name : string) (price rate : float) : BillLineItem :=
  {| item_name := JStr name; original_name := JStr name;
     quantity := 1; unit_price := price; total_price := price;
     hsn_code := None; gst_rate := Some rate;
     cgst := Some (PyFloat.round2 (price * rate / 100 / 2));
     sgst := Some (PyFloat.round2 (price * rate / 100 / 2));
     category := None |}.

Definition dosa_items : list BillLineItem :=
  [line "Masala Dosa" 120 5; line "Idli" 50 5; line "Parotta" 60 0].

Definition raw_item (name : string) (price : float) : json :=
  JObj (<["item_name" := JStr name]> (<["total_price" := JNum price]> ∅)).

(** The sample bill of the analyzer's own example. *)
Definition dosa_bill : dict :=
  <["store_name" := JStr "SARAVANA BHAVAN"]> (
  <["bill_number" := JStr "12345"]> (
  <["items" := JList [raw_item "Masala Dosa" 120; raw_item "Idli" 50;
                      raw_item "Parotta" 60]]> (
  <["gross_amount" := JNum 230]> (
  <["subtotal" := JNum 230]> (
  <["total_gst_charged" := JNum 11.5]> (
  <["grand_total" := JNum 241.5]> ∅)))))).

(** A bill on which a discount was read but no gross amount. *)
Definition discounted_bill : dict :=
  <["store_name" := JStr "SARAVANA BHAVAN"]> (
  <["bill_number" := JStr "12346"]> (
  <["items" := JList [raw_item "Masala Dosa" 200]]> (
  <["discount" := JNum 20]> (
  <["subtotal" := JNum 180]> (
  <["total_gst_charged" := JNum 9]> (
  <["grand_total" := JNum 189]> ∅)))))).

(** No items, one paisa of tax charged. *)
Definition one_paisa_bill : dict :=
  <["total_gst_charged" := JNum 0.01]> ∅.

(** One item at 5 percent, tax charged one paisa above the correct 11.50. *)
Definition paisa_off_bill : dict :=
  <["items" := JList [raw_item "Masala Dosa" 230]]> (
  <["gross_amount" := JNum 230]> (
  <["subtotal" := JNum 230]> (
  <["total_gst_charged" := JNum 11.51]> (
  <["grand_total" := JNum 241.51]> ∅)))).

(** The same bill with the tax charged two paise above the correct
    11.50. *)
Definition two_paise_off_bill : dict :=
  <["items" := JList [raw_item "Masala Dosa" 230]]> (
  <["gross_amount" := JNum 230]> (
  <["subtotal" := JNum 230]> (
  <["total_gst_charged" := JNum 11.52]> (
  <["grand_total" := JNum 241.52]> ∅)))).

(** Total tax stated, its split and the item quantity left out. *)
Definition unsplit_bill : dict :=
  <["items" := JList [raw_item "Masala Dosa" 200]]> (
  <["gross_amount" := JNum 200]> (
  <["subtotal" := JNum 200]> (
  <["total_gst_charged" := JNum 10]> (
  <["grand_total" := JNum 210]> ∅)))).

(** A bill on which every identity holds. *)
Definition clean_bill : dict :=
  <["store_name" := JStr "SARAVANA BHAVAN"]> (
  <["bill_number" := JStr "12347"]> (
  <["items" := JList [raw_item "Meals" 300]]> (
  <["gross_amount" := JNum 300]> (
  <["discount" := JNum 0]> (
  <["subtotal" := JNum 300]> (
  <["total_gst_charged" := JNum 15]> (
  <["grand_total" := JNum 315]> ∅))))))).

End Samples.

(** ** The printed report: [print_analysis] *)

Module Report.

Local Open Scope string_scope.
Local Open Scope float_scope.













End Report.

(** ** Serialization: [to_dict] *)

(** The values of the dictionaries that [to_dict] builds. *)
Inductive pyval : Type :=
| PJson (v : json)
| PFloat (x : float)
| PBool (b : bool)
| PStrOpt (s : option string)
| PFloatOpt (x : option float)
| PDetails (l : list detail)
| PWarnings (l : list warning)
| PList (l : list pyval)
| PDict (d : gmap string pyval).

Section ToDict.

Local Open Scope string_scope.

(** [BillLineItem.to_dict], that is [asdict(self)] *)
Definition BillLineItem_to_dict (item : BillLineItem) : gmap string pyval :=
  <["item_name" := PJson (item_name item)]> (
  <["original_name" := PJson (original_name item)]> (
  <["quantity" := PFloat (quantity item)]> (
  <["unit_price" := PFloat (unit_price item)]> (
  <["total_price" := PFloat (total_price item)]> (
  <["hsn_code" := PStrOpt (hsn_code item)]> (
  <["gst_rate" := PFloatOpt (gst_rate item)]> (
  <["cgst" := PFloatOpt (cgst item)]> (
  <["sgst" := PFloatOpt (sgst item)]> (
  <["category" := PStrOpt (category item)]> ∅))))))))).

(** [x or []] on an attribute that holds a list, or None as the class
    lets [discrepancy_details] and [warnings] default: None and the
    empty list both give the empty list. *)
Definition or_empty {A : Type} (x : option (list A)) : list A :=
  match x with
  | Some (a :: l) => a :: l
  | Some [] => []
  | None => []
  end.

(** [BillAnalysisResult.to_dict], on a result whose two lists are set *)
Definition BillAnalysisResult_to_dict (r : BillAnalysisResult) : gmap string pyval :=
  <["bill_number" := PJson (bill_number r)]> (
  <["restaurant_name" := PJson (restaurant_name r)]> (
  <["date" := PJson (date r)]> (
  <["gstin" := PJson (gstin r)]> (
  <["items" := PList ((fun item => PDict (BillLineItem_to_dict item)) <$> items r)]> (
  <["gross_amount" := PFloat (gross_amount r)]> (
  <["discount" := PFloat (discount r)]> (
  <["subtotal" := PFloat (subtotal r)]> (
  <["bill_charges" := PDict (
      <["total_gst" := PFloat (total_gst_charged r)]> (
      <["cgst" := PFloat (total_cgst_charged r)]> (
      <["sgst" := PFloat (total_sgst_charged r)]> (
      <["grand_total" := PFloat (grand_total r)]> ∅))))]> (
  <["correct_calculation" := PDict (
      <["total_gst" := PFloat (calculated_total_gst r)]> (
      <["cgst" := PFloat (calculated_cgst r)]> (
      <["sgst" := PFloat (calculated_sgst r)]> (
      <["grand_total" := PFloat (calculated_grand_total r)]> ∅))))]> (
  <["discrepancy" := PDict (
      <["found" := PBool (has_discrepancy r)]> (
      <["amount" := PFloat (discrepancy_amount r)]> (
      <["details" := PDetails (or_empty (Some (discrepancy_details r)))]> ∅)))]> (
  <["confidence_score" := PFloat (confidence_score r)]> (
  <["warnings" := PWarnings (or_empty (Some (warnings r)))]> ∅)))))))))))).

End ToDict.

(** ** The whole workflow and the service endpoints that call it *)

(** What the analyzer and the endpoints find outside themselves: the
    catalog behind the database path, whether the analyzer module can be
    imported, the environment variable GOOGLE_API_KEY, and the calls to
    Gemini, to the PDF reader and to the OCR, each with the text or
    record it returns or the exception it raises (an exception other
    than ImportError and HTTPException). [uploaded_file_text] stands for
    what the file endpoint does with an upload before the analysis:
    reading it, handing it to Gemini and taking the text of the reply. *)
Record Host : Type := {
  host_db : catalog;
  module_importable : bool;
  env_api_key : option string;
  genai_configure : string -> result unit;
  analyze_bill_with_gemini : string -> result json;
  extract_text_from_pdf : string -> result string;
  extract_text_from_image : string -> result string;
  uploaded_file_text : string -> result string
}.

(** An analyzer object: its key and the catalog of its database path. *)
Record GeminiGSTAnalyzer : Type := {
  api_key : string;
  db_path : catalog
}.

(** What the endpoints raise or let through. *)
Inductive raised : Type :=
| Exn (e : exn)
| ImportError
| HTTPException (status_code : nat).

Inductive response : Type :=
| Returns (body : gmap string pyval)
| Throws (x : raised).

Section Service.

Local Open Scope string_scope.

Variable float_of_str : string -> option float.
Variable host : Host.
Context {U : PyStr.Unicode}.

(** Truth value of an optional string: None and the empty string are
    false. *)
Definition nonempty (s : option string) : option string :=
  match s with
  | Some t => if String.eqb t "" then None else Some t
  | None => None
  end.

(** [GeminiGSTAnalyzer.__init__] *)
Definition init (key : option string) : result GeminiGSTAnalyzer :=
  match nonempty (match nonempty key with Some k => Some k | None => env_api_key host end) with
  | None => Raise ValueError
  | Some k =>
      _ <- genai_configure host k ;;
      Ok {| api_key := k; db_path := host_db host |}
  end.

(** The method [analyze_bill], steps 1 to 8. *)
Definition analyze_bill_method (self : GeminiGSTAnalyzer)
    (bill_text pdf_path image_path : option string) : result BillAnalysisResult :=
  (* Step 1 *)
  text <-
    match bill_text with
    | Some t => Ok t
    | None =>
        match nonempty pdf_path with
        | Some path => extract_text_from_pdf host path
        | None =>
            match nonempty image_path with
            | Some path => extract_text_from_image host path
            | None => Raise ValueError
            end
        end
    end ;;
  (* Step 2 *)
  gemini_result <- analyze_bill_with_gemini host text ;;
  (* Steps 3 to 8; the first [gemini_result.get] needs a dict *)
  match gemini_result with
  | JObj d => analyze_bill float_of_str (db_path self) d
  | _ => Raise AttributeError
  end.

Definition lift {A : Type} (r : result A) (k : A -> response) : response :=
  match r with
  | Ok a => k a
  | Raise e => Throws (Exn e)
  end.

(** POST /gst/analyze-bill: the body of the [try], then its handlers. *)
Definition api_analyze_bill_try (bill_text : string) : response :=
  if negb (module_importable host) then Throws (HTTPException 503)
  else if negb (bool_decide (is_Some (nonempty (env_api_key host))))
  then Throws (HTTPException 503)
  else
    lift (init (env_api_key host)) (fun analyzer =>
    lift (analyze_bill_method analyzer (Some bill_text) None None) (fun r =>
    Returns (BillAnalysisResult_to_dict r))).

Definition api_analyze_bill (bill_text : string) : response :=
  match api_analyze_bill_try bill_text with
  | Returns body => Returns body
  | Throws ImportError => Throws (HTTPException 503)
  | Throws _ => Throws (HTTPException 500)
  end.





End Service.

(** ** Vocabulary of the further properties *)

(** An ASCII character other than the zero byte and the LIKE wildcards,
    the percent sign and the underscore. *)
Definition plain_char (c : ascii) : bool :=
  Nat.ltb 0 (nat_of_ascii c) && Nat.ltb (nat_of_ascii c) 128
  && negb (Ascii.eqb c "%") && negb (Ascii.eqb c "_").

(** ASCII text without a zero byte and without a LIKE wildcard. *)
Fixpoint plain (s : string) : bool :=
  match s with
  | EmptyString => true
  | String c s' => plain_char c && plain s'
  end.

(** The stored text of a column as the query compares it: its letters A
    to Z lowercased, up to the first zero byte. *)
Definition compared_text (column : string) : string :=
  Sql.c_string (Sql.lower column).

(** The lowercased name occurs in the compared item name or category of
    the row. *)
Definition row_contains (name_lower : string) (row : gst_item) : bool :=
  PyStr.contains name_lower (compared_text (row_item_name row)) ||
  match row_item_category row with
  | Some cat => PyStr.contains name_lower (compared_text cat)
  | None => false
  end.

Definition row_triple (row : gst_item) : rate_triple :=
  (row_gst_rate row, row_hsn_code row, row_item_category row).


(** No warning, or a single one whose penalty is at most 0.10. *)
Definition mild (ws : list warning) : bool :=
  match ws with
  | [] => true
  | [w] => (penalty_of w <=? 0.10)%float
  | _ => false
  end.

Definition is_object (v : json) : bool :=
  match v with
  | JObj _ => true
  | _ => false
  end.

(** ** Sample hosts *)

Module ServiceSamples.

Local Open Scope string_scope.

(** A host with the module installed and a key set, whose Gemini calls
    answer every text with the same record. *)
Definition answering (reply : json) : Host :=
  {| host_db := Samples.restaurant_catalog;
     module_importable := true;
     env_api_key := Some "test-key";
     genai_configure := fun _ => Ok tt;
     analyze_bill_with_gemini := fun _ => Ok reply;
     extract_text_from_pdf := fun _ => Ok "text of the pdf";
     extract_text_from_image := fun _ => Ok "text of the image";
     uploaded_file_text := fun _ => Ok "text of the upload" |}.

(** A catalog in which a restaurant row comes before a phone row. *)
Definition mixed_catalog : list gst_item :=
  [ {| row_item_name := "Restaurant service";
       row_item_category := Some "Food and beverages";
       row_gst_rate := 5;
       row_hsn_code := Some "9963" |};
    {| row_item_name := "Mobile Phones";
       row_item_category := Some "Electronics";
       row_gst_rate := 12;
       row_hsn_code := Some "8517" |} ].


End ServiceSamples.

(** ** Facts about floats *)

Section FloatFacts.

Local Open Scope float_scope.

Lemma float_mul_comm (x y : float) : x * y = y * x.
Proof.
  apply Prim2SF_inj. rewrite !FloatAxioms.mul_spec. unfold SF64mul, SFmul.
  destruct (Prim2SF x) as [sx|sx| |sx mx ex], (Prim2SF y) as [sy|sy| |sy my ey];
    try reflexivity; try (rewrite (xorb_comm sx sy); reflexivity).
  rewrite (xorb_comm sx sy), (Pos.mul_comm mx my), (Z.add_comm ex ey).
  reflexivity.
Qed.

Lemma gt_zero_nonzero (x : float) : PyFloat.gt x 0 = true -> (x =? 0) = false.
Proof.
  unfold PyFloat.gt. rewrite FloatAxioms.ltb_spec, FloatAxioms.eqb_spec.
  unfold SFltb, SFeqb.
  change (Prim2SF 0) with (S754_zero false).
  destruct (Prim2SF x) as [s|s| |s m e]; simpl; try discriminate;
    destruct s; intros; try discriminate; reflexivity.
Qed.

Lemma div_nonzero (a b : float) : (b =? 0) = false -> PyFloat.div a b = Ok (a / b).
Proof. intros H. unfold PyFloat.div. rewrite H. reflexivity. Qed.

Lemma div_100 (a : float) : PyFloat.div a 100 = Ok (a / 100).
Proof. reflexivity. Qed.

Lemma div_2 (a : float) : PyFloat.div a 2 = Ok (a / 2).
Proof. reflexivity. Qed.

End FloatFacts.

(** ** The weighted tax calculation *)

Section Calculator.

Local Open Scope float_scope.

Lemma priced_fst (its : list BillLineItem) : fst <$> priced its = total_price <$> its.
Proof.
  unfold priced. induction its as [|it its IH]; simpl; [reflexivity|].
  f_equal. exact IH.
Qed.

Lemma weighted_rate_loop_fold (its : list BillLineItem) (total acc : float) :
  (total =? 0) = false ->
  Forall (fun it => is_Some (gst_rate it)) its ->
  weighted_rate_loop its total acc
  = Ok (fold_left (fun acc it => acc + (fst it / total) * snd it) (priced its) acc).
Proof.
  intros Htotal Hall. revert acc.
  induction Hall as [|it its [rate Hrate] _ IH]; intros acc; simpl.
  - reflexivity.
  - rewrite Hrate. rewrite (div_nonzero _ _ Htotal). cbn [bind].
    rewrite IH. rewrite (float_mul_comm rate). reflexivity.
Qed.

(** C1. For every list of line items (each with its resolved rate) and
    every taxable subtotal S, [calculate_correct_gst] returns, without
    raising, (0.0, 0.0, 0.0) when Σ total_price is zero, and otherwise
    (round(G,2), round(G/2,2), round(G/2,2)) with G = S × W / 100 and
    W = Σ (total_price / Σ total_price) × gst_rate: the only rounding is
    the one at the return. *)
Theorem calculate_correct_gst_spec (its : list BillLineItem) (S : float) :
  Forall (fun it => is_Some (gst_rate it)) its ->
  calculate_correct_gst its S
  = Ok (if PyFloat.sum (total_price <$> its) =? 0 then (0, 0, 0)
        else
          let G := S * Spec.weighted_rate (priced its) / 100 in
          (PyFloat.round2 G, PyFloat.round2 (G / 2), PyFloat.round2 (G / 2))).
Proof.
  intros Hall. unfold calculate_correct_gst, Spec.weighted_rate.
  rewrite priced_fst.
  destruct (PyFloat.sum (total_price <$> its) =? 0) eqn:Hz; [reflexivity|].
  rewrite (weighted_rate_loop_fold _ _ _ Hz Hall). cbn [bind].
  rewrite div_100. cbn [bind]. rewrite div_2. reflexivity.
Qed.

End Calculator.

(** ** Rate resolution *)

Section ResolverFacts.

Import Keywords.
Local Open Scope string_scope.
Local Open Scope float_scope.

Context {U : PyStr.Unicode}.

Lemma for_keyword_any (kws : list string) (s : string) (ret : rate_triple) :
  for_keyword kws s ret = if any_keyword_in kws s then Some ret else None.
Proof.
  unfold any_keyword_in.
  induction kws as [|kw kws IH]; simpl; [reflexivity|].
  destruct (PyStr.contains kw s); simpl; [reflexivity | exact IH].
Qed.

Lemma keyword_fallback_spec (s : string) : keyword_fallback s = spec_resolve s.
Proof.
  unfold keyword_fallback, spec_resolve, spec_keyword_table.
  rewrite !for_keyword_any. cbn [List.find fst snd].
  repeat match goal with
         | |- context [any_keyword_in ?k s] => destruct (any_keyword_in k s)
         end; reflexivity.
Qed.

Lemma spec_resolve_bounds (s : string) : rate_in_bounds (spec_resolve s).1.1 = true.
Proof.
  unfold spec_resolve, spec_keyword_table. cbn [List.find fst snd].
  repeat match goal with
         | |- context [any_keyword_in ?k s] => destruct (any_keyword_in k s)
         end; reflexivity.
Qed.

Lemma spec_resolve_constants (s : string) : In (spec_resolve s).1.1 [0; 5; 12; 18].
Proof.
  unfold spec_resolve, spec_keyword_table. cbn [List.find fst snd].
  repeat match goal with
         | |- context [any_keyword_in ?k s] => destruct (any_keyword_in k s)
         end; cbn; auto.
Qed.

Lemma fetchone_cases (rows : list gst_item) (pat : string) :
  Sql.fetchone rows pat
  = match rows with
    | [] => Ok None
    | _ :: _ =>
        if Sql.pattern_too_long pat then Raise DatabaseError
        else Ok (row_triple <$> List.find (Sql.where_clause pat) rows)
    end.
Proof.
  unfold Sql.fetchone. destruct rows as [|row rows]; [reflexivity|].
  destruct (Sql.pattern_too_long pat); [reflexivity|].
  destruct (List.find _ _); reflexivity.
Qed.

Lemma fetchone_row (rows : list gst_item) (pat : string) (r : rate_triple) :
  Sql.fetchone rows pat = Ok (Some r) ->
  exists row, List.find (Sql.where_clause pat) rows = Some row /\ r = row_triple row.
Proof.
  rewrite fetchone_cases. destruct rows as [|row0 rows]; [discriminate|].
  destruct (Sql.pattern_too_long pat); [discriminate|].
  destruct (List.find _ _) as [row|]; [|discriminate].
  intros [= <-]. exists row. split; reflexivity.
Qed.

Lemma fetchone_found (rows : list gst_item) (pat : string) (row : gst_item) :
  Sql.pattern_too_long pat = false ->
  List.find (Sql.where_clause pat) rows = Some row ->
  Sql.fetchone rows pat = Ok (Some (row_triple row)).
Proof.
  intros Hlen Hfind. rewrite fetchone_cases, Hlen, Hfind.
  destruct rows; [discriminate | reflexivity].
Qed.

(** The resolver by cases: the outcome of the query decides. *)
Lemma get_correct_gst_rate_cases (db : catalog) (name : json) :
  get_correct_gst_rate db name
  = match db, name with
    | CatalogRows rows, JStr s =>
        match Sql.fetchone rows ("%" ++ PyStr.lower s ++ "%") with
        | Ok (Some r) => r
        | Ok None => keyword_fallback (PyStr.lower s)
        | Raise _ => (5.0, None, Some "Unknown")
        end
    | _, _ => (5.0, None, Some "Unknown")
    end.
Proof.
  unfold get_correct_gst_rate, get_correct_gst_rate_try.
  destruct db as [|rows]; [reflexivity|]. cbn [connect bind].
  destruct name as [| | |s| |]; try reflexivity. cbn [Py.lower bind].
  destruct (Sql.fetchone rows _) as [[r|]|e]; reflexivity.
Qed.

(** C3, as amended. What [get_correct_gst_rate] returns is the stored
    triple of the catalog row that the query matched, the first row in
    scan order that satisfies the WHERE clause, verbatim, or it carries
    one of the constants 0, 5, 12, 18 of the keyword table and the
    defaults. A matched row is returned as stored whatever its rate,
    negative or above 100 included; so the rate lies in [0, 100]
    whenever every row of the catalog stores a rate in [0, 100]. *)
Theorem get_correct_gst_rate_bounds (db : catalog) (name : json) :
  let resolved := get_correct_gst_rate db name in
  ((exists rows s row,
      db = CatalogRows rows /\ name = JStr s
      /\ List.find (Sql.where_clause ("%" ++ PyStr.lower s ++ "%")) rows = Some row
      /\ resolved = (row_gst_rate row, row_hsn_code row, row_item_category row))
   \/ In resolved.1.1 [0; 5; 12; 18])
  /\ (forall rows s row,
        db = CatalogRows rows -> name = JStr s ->
        Sql.pattern_too_long ("%" ++ PyStr.lower s ++ "%") = false ->
        List.find (Sql.where_clause ("%" ++ PyStr.lower s ++ "%")) rows = Some row ->
        resolved = (row_gst_rate row, row_hsn_code row, row_item_category row))
  /\ (Forall (fun row => rate_in_bounds (row_gst_rate row) = true) (catalog_rows db) ->
      rate_in_bounds resolved.1.1 = true).
Proof.
  intros resolved.
  assert (Hcases : (exists rows s row,
                      db = CatalogRows rows /\ name = JStr s
                      /\ List.find (Sql.where_clause ("%" ++ PyStr.lower s ++ "%")) rows
                         = Some row
                      /\ resolved = row_triple row)
                   \/ In resolved.1.1 [0; 5; 12; 18]).
  { subst resolved. rewrite get_correct_gst_rate_cases.
    destruct db as [|rows]; [right; cbn; auto|].
    destruct name as [| | |s| |]; try solve [right; cbn; auto].
    destruct (Sql.fetchone rows _) as [[r|]|e] eqn:Hfetch.
    - apply fetchone_row in Hfetch as (row & Hfind & ->).
      left. exists rows. exists s. exists row. auto.
    - right. rewrite keyword_fallback_spec. apply spec_resolve_constants.
    - right. cbn. auto. }
  split; [exact Hcases|]. split.
  - intros rows s row -> -> Hlen Hfind. subst resolved.
    rewrite get_correct_gst_rate_cases, (fetchone_found _ _ _ Hlen Hfind). reflexivity.
  - intros Hrows. destruct Hcases as [(rows & s & row & -> & _ & Hfind & ->)|Hconst].
    + apply List.find_some in Hfind as [Hin _]. cbn [catalog_rows] in Hrows.
      rewrite List.Forall_forall in Hrows. apply Hrows. exact Hin.
    + cbn [In] in Hconst.
      destruct Hconst as [<-|[<-|[<-|[<-|[]]]]]; reflexivity.
Qed.

(** C4, as amended. When the catalog lookup raises, the handler of
    [get_correct_gst_rate] returns the fixed default (5.0, null,
    "Unknown") for every item name: the failure is not propagated and
    the keyword table is not consulted. The same holds for whatever
    exception the body of the try block raises. *)
Theorem get_correct_gst_rate_catalog_failure (name : json) :
  get_correct_gst_rate_try CatalogUnavailable name = Raise DatabaseError
  /\ get_correct_gst_rate CatalogUnavailable name = (5.0, None, Some "Unknown")
  /\ forall db e,
       get_correct_gst_rate_try db name = Raise e ->
       get_correct_gst_rate db name = (5.0, None, Some "Unknown").
Proof.
  split; [reflexivity|]. split; [reflexivity|].
  intros db e Hraise. unfold get_correct_gst_rate. rewrite Hraise. reflexivity.
Qed.

(** C9. For an item name on which the catalog query returns no row, the
    resolver returns the result of the first keyword set, in the order
    dry fruits, electronics, medical, fresh food, restaurant food, one
    of whose keywords occurs in the name as [str.lower] lowercases it,
    and (5.0, null, "Unknown (default 5%)") when none does; a name with
    a dry-fruit keyword resolves to "Dry fruits and nuts" whatever else
    it matches. *)
Theorem get_correct_gst_rate_keyword_order (rows : list gst_item) (s : string) :
  Sql.fetchone rows ("%" ++ PyStr.lower s ++ "%") = Ok None ->
  let r := get_correct_gst_rate (CatalogRows rows) (JStr s) in
  let matches kws := any_keyword_in kws (PyStr.lower s) in
  r = spec_resolve (PyStr.lower s)
  /\ (matches dry_fruits_keywords = true ->
      r = (5.0, Some "08013200", Some "Dry fruits and nuts"))
  /\ (matches dry_fruits_keywords = false ->
      matches electronics_keywords = true -> r = (18.0, None, Some "Electronics"))
  /\ (matches dry_fruits_keywords = false ->
      matches electronics_keywords = false ->
      matches medical_keywords = true -> r = (12.0, None, Some "Medical supplies"))
  /\ (matches dry_fruits_keywords = false ->
      matches electronics_keywords = false ->
      matches medical_keywords = false ->
      matches food_items_0_percent = true -> r = (0.0, None, Some "Food items (fresh)"))
  /\ (matches dry_fruits_keywords = false ->
      matches electronics_keywords = false ->
      matches medical_keywords = false ->
      matches food_items_0_percent = false ->
      matches food_items_5_percent = true -> r = (5.0, None, Some "Restaurant services"))
  /\ (matches dry_fruits_keywords = false ->
      matches electronics_keywords = false ->
      matches medical_keywords = false ->
      matches food_items_0_percent = false ->
      matches food_items_5_percent = false ->
      r = (5.0, None, Some "Unknown (default 5%)")).
Proof.
  intros Hmiss r matches.
  assert (Hr : r = spec_resolve (PyStr.lower s)).
  { subst r. rewrite get_correct_gst_rate_cases, Hmiss.
    apply keyword_fallback_spec. }
  split; [exact Hr|]. rewrite Hr. subst matches.
  unfold spec_resolve, spec_keyword_table. cbn [List.find fst snd].
  repeat split; intros; repeat match goal with
                               | H : any_keyword_in _ _ = _ |- _ => rewrite H; clear H
                               end; reflexivity.
Qed.

End ResolverFacts.

(** ** The consistency checks *)

Section Validator.

Local Open Scope string_scope.
Local Open Scope float_scope.

Variable float_of_str : string -> option float.

Ltac case_condition :=
  match goal with
  | |- context [if ?c then _ else _] =>
      lazymatch c with
      | context [if _ then _ else _] => fail
      | _ => destruct c; cbv iota
      end
  end.

(** C7. Whenever the five amounts of the record convert to floats,
    [validate_extraction] returns; the confidence it returns lies in
    [0.0, 1.0] and is 1.0 minus the penalties of the warnings emitted,
    clamped; the hard discount check (tolerance 30.0 if discount > 100,
    else 1.0) and the soft one never both fire, the soft one firing only
    when the hard one does not. The only exceptions are those of the
    five conversions. *)
Theorem validate_extraction_confidence (g : dict) (its : list BillLineItem) :
  match validate_extraction float_of_str g its with
  | Ok (confidence, ws) =>
      (0 <=? confidence) = true
      /\ (confidence <=? 1) = true
      /\ confidence
         = PyFloat.max 0 (PyFloat.min 1 (fold_left (fun c w => c - penalty_of w) ws 1))
      /\ exists gross disc sub,
           get_float float_of_str g "gross_amount" 0 = Ok gross
           /\ get_float float_of_str g "discount" 0 = Ok disc
           /\ get_float float_of_str g "subtotal" 0 = Ok sub
           /\ existsb is_hard_discount_check ws
              = PyFloat.gt (abs (gross - disc - sub))
                  (if PyFloat.gt disc 100 then 30 else 1)
           /\ existsb is_soft_discount_check ws
              = negb (PyFloat.gt (abs (gross - disc - sub))
                        (if PyFloat.gt disc 100 then 30 else 1))
                && PyFloat.gt (abs (gross - disc - sub)) 1
           /\ existsb is_hard_discount_check ws && existsb is_soft_discount_check ws
              = false
  | Raise e =>
      exists key, In key numeric_keys /\ get_float float_of_str g key 0 = Raise e
  end.
Proof.
  unfold validate_extraction, numeric_keys.
  destruct (get_float _ g "gross_amount" 0) as [gross|e] eqn:Hgross;
    [|exists "gross_amount"; cbn; intuition].
  destruct (get_float _ g "discount" 0) as [disc|e] eqn:Hdisc;
    [|exists "discount"; cbn; intuition].
  destruct (get_float _ g "subtotal" 0) as [sub|e] eqn:Hsub;
    [|exists "subtotal"; cbn; intuition].
  destruct (get_float _ g "total_gst_charged" 0) as [tg|e] eqn:Htg;
    [|exists "total_gst_charged"; cbn; intuition].
  destruct (get_float _ g "grand_total" 0) as [gt|e] eqn:Hgt;
    [|exists "grand_total"; cbn; intuition].
  cbn [bind]. cbv zeta.
  destruct (PyFloat.gt sub 0) eqn:Hpos;
    [rewrite (div_nonzero _ _ (gt_zero_nonzero _ Hpos)); cbn [bind]|];
    cbn [bind]; cbv beta iota;
    (split; [|split; [|split; [|exists gross, disc, sub;
                                do 3 (split; [reflexivity|])]]]);
    repeat case_condition; repeat split; reflexivity.
Qed.

End Validator.

(** ** The assembly of the result *)

Section Analysis.

Local Open Scope string_scope.
Local Open Scope float_scope.

Context {U : PyStr.Unicode}.

Variable float_of_str : string -> option float.
Variable db : catalog.

Tactic Notation "bind_inversion" hyp(H) "as" ident(x) ident(Hx) :=
  match type of H with
  | bind ?c _ = Ok _ => destruct c as [x|] eqn:Hx; cbn [bind] in H; [|discriminate H]
  end.

(** What a returned result was built from: every step of [analyze_bill]
    succeeded, in order. *)
Lemma analyze_bill_inv (g : dict) (r : BillAnalysisResult) :
  analyze_bill float_of_str db g = Ok r ->
  exists gross disc sub raw its conf ws cg cc cs bg bt det tc ts,
    get_float float_of_str g "gross_amount" 0 = Ok gross
    /\ get_float float_of_str g "discount" 0 = Ok disc
    /\ get_float float_of_str g "subtotal" 0 = Ok sub
    /\ Py.iter (Py.dict_get g "items" (JList [])) = Ok raw
    /\ for_each (build_item float_of_str db) raw = Ok its
    /\ validate_extraction float_of_str g its = Ok (conf, ws)
    /\ calculate_correct_gst its sub = Ok (cg, cc, cs)
    /\ get_float float_of_str g "total_gst_charged" 0 = Ok bg
    /\ get_float float_of_str g "grand_total" 0 = Ok bt
    /\ (PyFloat.gt disc 0 = true -> exists q, PyFloat.div disc gross = Ok q)
    /\ get_float float_of_str g "cgst_charged" (bg / 2) = Ok tc
    /\ get_float float_of_str g "sgst_charged" (bg / 2) = Ok ts
    /\ r = {| bill_number := Py.dict_get g "bill_number" JNull;
              restaurant_name := Py.dict_get g "store_name" JNull;
              date := Py.dict_get g "date" JNull;
              gstin := Py.dict_get g "gstin" JNull;
              items := its;
              gross_amount := gross;
              discount := disc;
              subtotal := sub;
              total_gst_charged := bg;
              total_cgst_charged := tc;
              total_sgst_charged := ts;
              grand_total := bt;
              calculated_total_gst := cg;
              calculated_cgst := cc;
              calculated_sgst := cs;
              calculated_grand_total := PyFloat.round2 (sub + cg);
              has_discrepancy := PyFloat.gt (abs (PyFloat.round2 (bg - cg))) 0.01;
              discrepancy_amount := PyFloat.round2 (bg - cg);
              discrepancy_details := det;
              confidence_score := conf;
              warnings := ws |}.
Proof.
  unfold analyze_bill. intros H.
  bind_inversion H as gross Hgross. bind_inversion H as disc Hdisc.
  bind_inversion H as sub Hsub. bind_inversion H as raw Hraw.
  bind_inversion H as its Hits. bind_inversion H as validated Hvalid.
  destruct validated as [conf ws].
  bind_inversion H as calculated Hcalc. destruct calculated as [[cg cc] cs].
  bind_inversion H as bg Hbg. bind_inversion H as bt Hbt.
  bind_inversion H as det Hdet.
  rewrite div_2 in H. cbn [bind] in H. bind_inversion H as tc Htc.
  bind_inversion H as ts Hts.
  injection H as <-.
  exists gross, disc, sub, raw, its, conf, ws, cg, cc, cs, bg, bt, det, tc, ts.
  repeat (split; [first [reflexivity | assumption]|]).
  split; [|split; [assumption|split; [assumption|reflexivity]]].
  intros Hpos. rewrite Hpos in Hdet.
  destruct (PyFloat.div disc gross) as [q|] eqn:Hq; [exists q; reflexivity|discriminate].
Qed.

Lemma for_each_lookup {A B : Type} (f : A -> result B) (l : list A) (l' : list B) :
  for_each f l = Ok l' ->
  forall (i : nat) (a : A) (b : B), l !! i = Some a -> l' !! i = Some b -> f a = Ok b.
Proof.
  revert l'. induction l as [|x l IH]; intros l' H i a b Ha Hb.
  - destruct i; discriminate Ha.
  - cbn [for_each] in H.
    destruct (f x) as [y|] eqn:Hy; cbn [bind] in H; [|discriminate H].
    destruct (for_each f l) as [ys|]; cbn [bind] in H; [|discriminate H].
    injection H as <-.
    destruct i as [|i]; cbn in Ha, Hb.
    + injection Ha as <-. injection Hb as <-. exact Hy.
    + exact (IH ys eq_refl i a b Ha Hb).
Qed.

Lemma get_float_absent (d : dict) (key : string) (dflt : float) :
  d !! key = None -> get_float float_of_str d key dflt = Ok dflt.
Proof. intros H. unfold get_float, Py.dict_get. rewrite H. reflexivity. Qed.

Lemma get_float_insert_ne (d : dict) (k key : string) (v : json) (dflt : float) :
  k <> key ->
  get_float float_of_str (<[k := v]> d) key dflt = get_float float_of_str d key dflt.
Proof.
  intros Hne. unfold get_float, Py.dict_get. rewrite lookup_insert_ne by exact Hne.
  reflexivity.
Qed.

(** The item that [build_item] returns carries the resolved rate and the
    amounts converted from the item record, with the defaults of absent
    keys. *)
Lemma build_item_inv (item_data : json) (it : BillLineItem) :
  build_item float_of_str db item_data = Ok it ->
  exists d,
    item_data = JObj d
    /\ gst_rate it
       = Some (get_correct_gst_rate db (Py.dict_get d "item_name" (JStr ""))).1.1
    /\ get_float float_of_str d "total_price" 0 = Ok (total_price it)
    /\ get_float float_of_str d "quantity" 1 = Ok (quantity it)
    /\ get_float float_of_str d "unit_price" 0 = Ok (unit_price it).
Proof.
  destruct item_data as [| | | | |d]; try discriminate.
  unfold build_item, get_float. cbn [Py.get bind].
  intros H. exists d.
  destruct (get_correct_gst_rate db _) as [[rate hsn] cat].
  bind_inversion H as tp Htp. rewrite div_100 in H. cbn [bind] in H.
  bind_inversion H as q Hq. bind_inversion H as up Hup.
  rewrite div_2 in H. cbn [bind] in H.
  injection H as <-. cbn [gst_rate total_price quantity unit_price fst].
  repeat split; first [reflexivity | assumption].
Qed.

Lemma for_each_Forall {A B : Type} (f : A -> result B) (l : list A) (l' : list B) :
  for_each f l = Ok l' -> Forall (fun b => exists a, f a = Ok b) l'.
Proof.
  revert l'. induction l as [|x l IH]; intros l' H; cbn [for_each] in H.
  - injection H as <-. constructor.
  - destruct (f x) as [y|] eqn:Hy; cbn [bind] in H; [|discriminate H].
    destruct (for_each f l) as [ys|]; cbn [bind] in H; [|discriminate H].
    injection H as <-. constructor; [exists x; exact Hy | exact (IH ys eq_refl)].
Qed.

Lemma built_items_have_rates (raw : list json) (its : list BillLineItem) :
  for_each (build_item float_of_str db) raw = Ok its ->
  Forall (fun it => is_Some (gst_rate it)) its.
Proof.
  intros H. apply for_each_Forall in H.
  eapply Forall_impl; [exact H|].
  intros it [x Hx]. apply build_item_inv in Hx as (d & _ & Hrate & _).
  rewrite Hrate. eexists. reflexivity.
Qed.

Lemma calculate_correct_gst_returns (its : list BillLineItem) (S : float) :
  Forall (fun it => is_Some (gst_rate it)) its ->
  exists t, calculate_correct_gst its S = Ok t.
Proof.
  intros Hall. unfold calculate_correct_gst.
  destruct (PyFloat.sum (total_price <$> its) =? 0) eqn:Hz; [eexists; reflexivity|].
  rewrite (weighted_rate_loop_fold _ _ _ Hz Hall). cbn [bind].
  rewrite div_100. cbn [bind]. rewrite div_2. cbn [bind].
  eexists. reflexivity.
Qed.

Lemma validate_extraction_returns (g : dict) (its : list BillLineItem) :
  (forall key, In key numeric_keys -> exists x, get_float float_of_str g key 0 = Ok x) ->
  exists validated, validate_extraction float_of_str g its = Ok validated.
Proof.
  intros Hkeys. unfold validate_extraction.
  destruct (Hkeys "gross_amount") as [gross ->]; [cbn; intuition|].
  destruct (Hkeys "discount") as [disc ->]; [cbn; intuition|].
  destruct (Hkeys "subtotal") as [sub ->]; [cbn; intuition|].
  destruct (Hkeys "total_gst_charged") as [tg ->]; [cbn; intuition|].
  destruct (Hkeys "grand_total") as [gt ->]; [cbn; intuition|].
  cbn [bind]. cbv zeta.
  destruct (PyFloat.gt sub 0) eqn:Hpos;
    [rewrite (div_nonzero _ _ (gt_zero_nonzero _ Hpos))|];
    cbn [bind]; eexists; reflexivity.
Qed.

(** When [analyze_bill] returns: the amounts convert to floats, the
    items can be iterated and built, and a positive discount comes with
    a gross amount that is not zero. *)
Lemma analyze_bill_returns (g : dict) :
  (forall key, In key numeric_keys -> exists x, get_float float_of_str g key 0 = Ok x) ->
  (forall dflt, exists x, get_float float_of_str g "cgst_charged" dflt = Ok x) ->
  (forall dflt, exists x, get_float float_of_str g "sgst_charged" dflt = Ok x) ->
  (exists raw its,
     Py.iter (Py.dict_get g "items" (JList [])) = Ok raw
     /\ for_each (build_item float_of_str db) raw = Ok its) ->
  (forall disc gross,
     get_float float_of_str g "discount" 0 = Ok disc ->
     get_float float_of_str g "gross_amount" 0 = Ok gross ->
     PyFloat.gt disc 0 = true -> (gross =? 0) = false) ->
  exists r, analyze_bill float_of_str db g = Ok r.
Proof.
  intros Hkeys Hcgst Hsgst (raw & its & Hraw & Hits) Hguard.
  destruct (validate_extraction_returns g its Hkeys) as [[conf ws] Hvalid].
  unfold analyze_bill.
  destruct (Hkeys "gross_amount") as [gross Hgross]; [cbn; intuition|].
  destruct (Hkeys "discount") as [disc Hdisc]; [cbn; intuition|].
  destruct (Hkeys "subtotal") as [sub Hsub]; [cbn; intuition|].
  destruct (Hkeys "total_gst_charged") as [bg Hbg]; [cbn; intuition|].
  destruct (Hkeys "grand_total") as [bt Hbt]; [cbn; intuition|].
  destruct (calculate_correct_gst_returns its sub (built_items_have_rates _ _ Hits))
    as [[[cg cc] cs] Hcalc].
  destruct (Hcgst (bg / 2)) as [tc Htc]. destruct (Hsgst (bg / 2)) as [ts Hts].
  rewrite Hgross, Hdisc, Hsub. cbn [bind].
  rewrite Hraw. cbn [bind]. rewrite Hits. cbn [bind].
  rewrite Hvalid. cbn [bind]. rewrite Hcalc. cbn [bind].
  rewrite Hbg, Hbt. cbn [bind].
  destruct (PyFloat.gt disc 0) eqn:Hpos.
  - rewrite (div_nonzero _ _ (Hguard disc gross Hdisc Hgross Hpos)). cbn [bind].
    rewrite div_2. cbn [bind]. rewrite Htc. cbn [bind]. rewrite Hts. cbn [bind].
    eexists. reflexivity.
  - cbn [bind].
    rewrite div_2. cbn [bind]. rewrite Htc. cbn [bind]. rewrite Hts. cbn [bind].
    eexists. reflexivity.
Qed.

(** A positive discount with a zero gross amount never yields a result:
    the percentage of the discount note divides by the gross amount. *)
Lemma positive_discount_zero_gross (g : dict) (disc gross : float) :
  get_float float_of_str g "discount" 0 = Ok disc ->
  get_float float_of_str g "gross_amount" 0 = Ok gross ->
  PyFloat.gt disc 0 = true ->
  (gross =? 0) = true ->
  forall r, analyze_bill float_of_str db g <> Ok r.
Proof.
  intros Hdisc Hgross Hpos Hzero r H.
  apply analyze_bill_inv in H
    as (gross' & disc' & sub & raw & its & conf & ws & cg & cc & cs & bg & bt & det
        & tc & ts & Hgross' & Hdisc' & _ & _ & _ & _ & _ & _ & _ & Hdiv & _).
  rewrite Hgross in Hgross'. injection Hgross' as <-.
  rewrite Hdisc in Hdisc'. injection Hdisc' as <-.
  destruct (Hdiv Hpos) as [q Hq].
  unfold PyFloat.div in Hq. rewrite Hzero in Hq. discriminate Hq.
Qed.

(** C5, as amended. For a record whose items list is empty the
    calculation returns (0.0, 0.0, 0.0) for every subtotal, without a
    division, and the result flags a discrepancy exactly when the charged
    total GST alone, rounded to two decimals, exceeds the tolerance of
    0.01 in absolute value. *)
Theorem empty_items_discrepancy (g : dict) (r : BillAnalysisResult) :
  Py.iter (Py.dict_get g "items" (JList [])) = Ok [] ->
  analyze_bill float_of_str db g = Ok r ->
  (forall S, calculate_correct_gst [] S = Ok (0, 0, 0))
  /\ items r = []
  /\ (calculated_total_gst r, calculated_cgst r, calculated_sgst r) = (0, 0, 0)
  /\ has_discrepancy r
     = PyFloat.gt (abs (PyFloat.round2 (total_gst_charged r - 0))) 0.01.
Proof.
  intros Hempty H.
  apply analyze_bill_inv in H
    as (gross & disc & sub & raw & its & conf & ws & cg & cc & cs & bg & bt & det
        & tc & ts & _ & _ & _ & Hraw & Hits & _ & Hcalc & _ & _ & _ & _ & _ & ->).
  rewrite Hempty in Hraw. injection Hraw as <-.
  cbn [for_each] in Hits. injection Hits as <-.
  cbn in Hcalc. injection Hcalc as <- <- <-.
  cbn. repeat split; reflexivity.
Qed.

(** C6. In every result the charged total GST c is the amount read from
    the record and the calculated total GST g is what
    [calculate_correct_gst] returns for the built items and the
    subtotal; discrepancy_amount is round(c − g, 2) and has_discrepancy
    is |discrepancy_amount| > 0.01: a discrepancy of exactly 0.01 (of
    either sign) is not flagged, one of 0.02 is. *)
Theorem discrepancy_tolerance (g : dict) (r : BillAnalysisResult) :
  analyze_bill float_of_str db g = Ok r ->
  get_float float_of_str g "total_gst_charged" 0 = Ok (total_gst_charged r)
  /\ get_float float_of_str g "subtotal" 0 = Ok (subtotal r)
  /\ (exists raw,
        Py.iter (Py.dict_get g "items" (JList [])) = Ok raw
        /\ for_each (build_item float_of_str db) raw = Ok (items r))
  /\ calculate_correct_gst (items r) (subtotal r)
     = Ok (calculated_total_gst r, calculated_cgst r, calculated_sgst r)
  /\ discrepancy_amount r
     = PyFloat.round2 (total_gst_charged r - calculated_total_gst r)
  /\ has_discrepancy r = PyFloat.gt (abs (discrepancy_amount r)) 0.01
  /\ (discrepancy_amount r = 0.01 -> has_discrepancy r = false)
  /\ (discrepancy_amount r = 0.02 -> has_discrepancy r = true)
  /\ (discrepancy_amount r = -0.01 -> has_discrepancy r = false)
  /\ (discrepancy_amount r = -0.02 -> has_discrepancy r = true).
Proof.
  intros H.
  apply analyze_bill_inv in H
    as (gross & disc & sub & raw & its & conf & ws & cg & cc & cs & bg & bt & det
        & tc & ts & _ & _ & Hsub & Hraw & Hits & _ & Hcalc & Hbg & _ & _ & _ & _ & ->).
  cbn [discrepancy_amount has_discrepancy total_gst_charged calculated_total_gst
       calculated_cgst calculated_sgst items subtotal].
  split; [exact Hbg|]. split; [exact Hsub|].
  split; [exists raw; split; assumption|]. split; [exact Hcalc|].
  repeat split; intros ->; reflexivity.
Qed.

(** C8, as amended. Reading an absent amount, of the record or of an
    item, does not raise and yields the default of its read. In every
    result an absent gross_amount,
    discount, subtotal, total_gst_charged or grand_total is carried as
    0.0, absent cgst_charged and sgst_charged are carried as half of the
    charged total GST, and an item without total_price, unit_price or
    quantity gets 0.0, 0.0 and 1.0. *)
Theorem absent_fields_default (g : dict) (r : BillAnalysisResult) :
  analyze_bill float_of_str db g = Ok r ->
  (forall (d : dict) key dflt,
     d !! key = None -> get_float float_of_str d key dflt = Ok dflt)
  /\ (g !! "gross_amount" = None -> gross_amount r = 0)
  /\ (g !! "discount" = None -> discount r = 0)
  /\ (g !! "subtotal" = None -> subtotal r = 0)
  /\ (g !! "total_gst_charged" = None -> total_gst_charged r = 0)
  /\ (g !! "grand_total" = None -> grand_total r = 0)
  /\ (g !! "cgst_charged" = None -> total_cgst_charged r = total_gst_charged r / 2)
  /\ (g !! "sgst_charged" = None -> total_sgst_charged r = total_gst_charged r / 2)
  /\ (forall raw i d it,
        Py.iter (Py.dict_get g "items" (JList [])) = Ok raw ->
        raw !! i = Some (JObj d) -> items r !! i = Some it ->
        (d !! "total_price" = None -> total_price it = 0)
        /\ (d !! "unit_price" = None -> unit_price it = 0)
        /\ (d !! "quantity" = None -> quantity it = 1)).
Proof.
  intros H.
  apply analyze_bill_inv in H
    as (gross & disc & sub & raw & its & conf & ws & cg & cc & cs & bg & bt & det
        & tc & ts & Hgross & Hdisc & Hsub & Hraw & Hits & _ & _ & Hbg & Hbt & _
        & Htc & Hts & ->).
  cbn [gross_amount discount subtotal total_gst_charged grand_total
       total_cgst_charged total_sgst_charged items].
  split; [intros d key dflt; apply get_float_absent|].
  repeat match goal with
         | |- (?g' !! ?k = None -> _) /\ _ =>
             split; [intros Habs;
                     match goal with
                     | Hk : get_float _ _ k _ = Ok _ |- _ =>
                         rewrite (get_float_absent _ _ _ Habs) in Hk;
                         injection Hk as <-; reflexivity
                     end|]
         end.
  intros raw' i d it Hraw' Hi Hit.
  rewrite Hraw in Hraw'. injection Hraw' as <-.
  pose proof (for_each_lookup _ _ _ Hits i _ _ Hi Hit) as Hbuild.
  apply build_item_inv in Hbuild as (d' & [= <-] & _ & Hp & Hq & Hu).
  repeat split; intros Habs;
    match goal with
    | Hk : get_float _ _ ?k _ = Ok (?f it) |- ?f it = _ =>
        rewrite (get_float_absent _ _ _ Habs) in Hk; injection Hk as <-; reflexivity
    end.
Qed.

(** C10. In every result the calculated grand total is round(extracted
    subtotal + calculated total GST, 2); the grand total stated on the
    bill does not enter it: with any other value under grand_total the
    calculated grand total is the same. *)
Theorem calculated_grand_total_rebuilt (g : dict) (r : BillAnalysisResult) :
  analyze_bill float_of_str db g = Ok r ->
  get_float float_of_str g "subtotal" 0 = Ok (subtotal r)
  /\ calculated_grand_total r
     = PyFloat.round2 (subtotal r + calculated_total_gst r)
  /\ (forall v r',
        analyze_bill float_of_str db (<["grand_total" := v]> g) = Ok r' ->
        calculated_grand_total r' = calculated_grand_total r).
Proof.
  intros H.
  apply analyze_bill_inv in H
    as (gross & disc & sub & raw & its & conf & ws & cg & cc & cs & bg & bt & det
        & tc & ts & _ & _ & Hsub & Hraw & Hits & _ & Hcalc & _ & _ & _ & _ & _ & ->).
  cbn [subtotal calculated_grand_total calculated_total_gst].
  split; [exact Hsub|]. split; [reflexivity|].
  intros v r' H'.
  apply analyze_bill_inv in H'
    as (gross' & disc' & sub' & raw' & its' & conf' & ws' & cg' & cc' & cs' & bg'
        & bt' & det' & tc' & ts' & _ & _ & Hsub' & Hraw' & Hits' & _ & Hcalc' & _
        & _ & _ & _ & _ & ->).
  cbn [calculated_grand_total].
  rewrite get_float_insert_ne in Hsub' by discriminate.
  rewrite Hsub in Hsub'. injection Hsub' as <-.
  unfold Py.dict_get in Hraw'. rewrite lookup_insert_ne in Hraw' by discriminate.
  fold (Py.dict_get g "items" (JList [])) in Hraw'.
  rewrite Hraw in Hraw'. injection Hraw' as <-.
  rewrite Hits in Hits'. injection Hits' as <-.
  rewrite Hcalc in Hcalc'. injection Hcalc' as <- _ _.
  reflexivity.
Qed.

End Analysis.

(** ** A discount without a gross amount *)

Section DiscountWithoutGross.

Import Samples.
Local Open Scope string_scope.
Local Open Scope float_scope.

Context {U : PyStr.Unicode}.

(** C2, on the code. A record with a positive discount and no gross
    amount makes the analysis raise ZeroDivisionError where the note on
    the discount is assembled. *)
Theorem discount_without_gross_raises :
  PyFloat.gt 20 0 = true
  /\ get_float no_numeric_strings discounted_bill "discount" 0 = Ok 20
  /\ get_float no_numeric_strings discounted_bill "gross_amount" 0 = Ok 0
  /\ analyze_bill no_numeric_strings empty_catalog discounted_bill
     = Raise ZeroDivisionError.
Proof. repeat split; vm_compute; reflexivity. Qed.

End DiscountWithoutGross.

(** ** The properties on the sample records *)

Section Instances.

Import Samples Keywords.
Local Open Scope string_scope.
Local Open Scope float_scope.

#[local] Existing Instance ascii_text.

Ltac evaluate := vm_compute; reflexivity.

(** [round(x, 2)] on values whose halfway cases show the rounding of the
    exact binary value. *)
Example round2_values :
  PyFloat.round2 2.675 = 2.67
  /\ PyFloat.round2 0.125 = 0.12
  /\ PyFloat.round2 0.375 = 0.38
  /\ PyFloat.round2 1.005 = 1
  /\ PyFloat.round2 8.513043478260869 = 8.51
  /\ PyFloat.round2 (-0.001) = -0
  /\ PyFloat.round2 (11.51 - 11.5) = 0.01
  /\ PyFloat.round2 infinity = infinity.
Proof. repeat split; evaluate. Qed.

(** The sample bill of the analyzer: the weighted rate gives 8.50 of
    tax against the 11.50 charged, and the zero-rated Parotta is named. *)
Example dosa_bill_analysis :
  exists r,
    analyze_bill no_numeric_strings empty_catalog dosa_bill = Ok r
    /\ (calculated_total_gst r, calculated_cgst r, calculated_sgst r)
       = (8.5, 4.25, 4.25)
    /\ discrepancy_amount r = 3
    /\ has_discrepancy r = true
    /\ discrepancy_details r
       = [ChargedButShouldBe 11.5 8.5; OverchargedBy 3;
          ShouldHaveZeroGst (JStr "Parotta")]
    /\ confidence_score r = 1
    /\ warnings r = [].
Proof. eexists. split; [evaluate|]. repeat split; reflexivity. Qed.

(** Consistent amounts give confidence 1.0 and no warning; items that
    do not sum to the gross amount, or a grand total that is not
    subtotal plus tax, lower it. *)
Example validate_extraction_samples :
  validate_extraction no_numeric_strings clean_bill [line "Meals" 300 5]
  = Ok (1, [])
  /\ validate_extraction no_numeric_strings
       (<["gross_amount" := JNum 280]> clean_bill) [line "Meals" 300 5]
     = Ok (0.7, [ItemsSumMismatch 300 280; DiscountMismatch 280 0 300])
  /\ validate_extraction no_numeric_strings
       (<["grand_total" := JNum 320]> clean_bill) [line "Meals" 300 5]
     = Ok (0.8, [GrandTotalMismatch 315 320]).
Proof. repeat split; evaluate. Qed.

(** The three items of the sample bill, taxable subtotal 230. *)
Lemma calculate_correct_gst_spec_witness :
  Forall (fun it => is_Some (gst_rate it)) dosa_items
  /\ calculate_correct_gst dosa_items 230 = Ok (8.5, 4.25, 4.25).
Proof.
  assert (H : Forall (fun it => is_Some (gst_rate it)) dosa_items)
    by (repeat constructor; eexists; reflexivity).
  split; [exact H|].
  rewrite (calculate_correct_gst_spec dosa_items 230 H).
  vm_compute. reflexivity.
Defined.

(** A stored rate of 150 is returned as it is. *)
Lemma malformed_row_rate_returned :
  let rate := (get_correct_gst_rate malformed_catalog (JStr "Gold")).1.1 in
  rate = 150 /\ (rate <=? 100) = false /\ rate_in_bounds rate = false.
Proof. vm_compute. repeat split; reflexivity. Qed.

(** A catalog whose only row stores 5, matched by the name; and the
    malformed row, matched by "Gold" and returned as stored. *)
Lemma get_correct_gst_rate_bounds_witness :
  (Forall (fun row => rate_in_bounds (row_gst_rate row) = true)
     (catalog_rows restaurant_catalog)
   /\ rate_in_bounds (get_correct_gst_rate restaurant_catalog (JStr "Restaurant")).1.1
      = true)
  /\ (Sql.pattern_too_long ("%" ++ PyStr.lower "Gold" ++ "%") = false
      /\ List.find (Sql.where_clause ("%" ++ PyStr.lower "Gold" ++ "%"))
           (catalog_rows malformed_catalog)
         = List.head (catalog_rows malformed_catalog)
      /\ get_correct_gst_rate malformed_catalog (JStr "Gold")
         = (150, Some "7108", Some "Precious metals")).
Proof.
  assert (H : Forall (fun row => rate_in_bounds (row_gst_rate row) = true)
                (catalog_rows restaurant_catalog))
    by (repeat constructor).
  assert (Hlen : Sql.pattern_too_long ("%" ++ PyStr.lower "Gold" ++ "%") = false)
    by evaluate.
  assert (Hfind : List.find (Sql.where_clause ("%" ++ PyStr.lower "Gold" ++ "%"))
                    (catalog_rows malformed_catalog)
                  = List.head (catalog_rows malformed_catalog))
    by evaluate.
  split.
  - split; [exact H|].
    exact (proj2 (proj2 (get_correct_gst_rate_bounds restaurant_catalog
                           (JStr "Restaurant"))) H).
  - split; [exact Hlen|]. split; [exact Hfind|].
    exact (proj1 (proj2 (get_correct_gst_rate_bounds malformed_catalog (JStr "Gold")))
             _ "Gold" _ eq_refl eq_refl Hlen Hfind).
Defined.

(** With the catalog unavailable a name with the keyword "mobile" is
    not resolved as electronics, and the default of an unknown name is
    not the one of the keyword cascade. *)
Lemma catalog_failure_ignores_keywords :
  PyStr.contains "mobile" (PyStr.lower "Mobile cover") = true
  /\ get_correct_gst_rate CatalogUnavailable (JStr "Mobile cover")
     <> (18.0, None, Some "Electronics")
  /\ get_correct_gst_rate CatalogUnavailable (JStr "Xyzzy")
     <> (5.0, None, Some "Unknown (default 5%)").
Proof.
  split; [evaluate|].
  split; vm_compute; intros H; discriminate H.
Qed.

(** No items, 0.01 of tax charged: nonzero, and not flagged. *)
Lemma one_paisa_not_flagged :
  exists r,
    analyze_bill no_numeric_strings empty_catalog one_paisa_bill = Ok r
    /\ items r = []
    /\ (total_gst_charged r =? 0) = false
    /\ has_discrepancy r = false.
Proof. eexists. split; [evaluate|]. repeat split; reflexivity. Qed.

(** The same record under the amended statement. *)
Lemma empty_items_discrepancy_witness :
  exists r,
    Py.iter (Py.dict_get one_paisa_bill "items" (JList [])) = Ok []
    /\ analyze_bill no_numeric_strings empty_catalog one_paisa_bill = Ok r
    /\ (calculated_total_gst r, calculated_cgst r, calculated_sgst r) = (0, 0, 0)
    /\ has_discrepancy r
       = PyFloat.gt (abs (PyFloat.round2 (total_gst_charged r - 0))) 0.01.
Proof.
  eexists.
  assert (Hitems : Py.iter (Py.dict_get one_paisa_bill "items" (JList [])) = Ok [])
    by evaluate.
  split; [exact Hitems|].
  match goal with |- ?P /\ _ => assert (Hrun : P) by evaluate end.
  split; [exact Hrun|].
  exact (proj2 (proj2 (empty_items_discrepancy no_numeric_strings empty_catalog
                         one_paisa_bill _ Hitems Hrun))).
Defined.

(** Tax charged 11.51 against 11.50 calculated: the discrepancy is
    exactly 0.01 and is not flagged. Charged 11.52, it is 0.02 and is
    flagged. *)
Lemma discrepancy_tolerance_witness :
  (exists r,
     analyze_bill no_numeric_strings empty_catalog paisa_off_bill = Ok r
     /\ total_gst_charged r = 11.51
     /\ calculated_total_gst r = 11.5
     /\ discrepancy_amount r = 0.01
     /\ has_discrepancy r = false)
  /\ (exists r,
        analyze_bill no_numeric_strings empty_catalog two_paise_off_bill = Ok r
        /\ total_gst_charged r = 11.52
        /\ calculated_total_gst r = 11.5
        /\ discrepancy_amount r = 0.02
        /\ has_discrepancy r = true).
Proof.
  split.
  - eexists.
    match goal with |- ?P /\ _ => assert (Hrun : P) by evaluate end.
    split; [exact Hrun|].
    pose proof (discrepancy_tolerance no_numeric_strings empty_catalog
                  paisa_off_bill _ Hrun) as (_ & _ & _ & _ & _ & _ & Hflag & _).
    split; [reflexivity|]. split; [reflexivity|].
    split; [reflexivity | exact (Hflag eq_refl)].
  - eexists.
    match goal with |- ?P /\ _ => assert (Hrun : P) by evaluate end.
    split; [exact Hrun|].
    pose proof (discrepancy_tolerance no_numeric_strings empty_catalog
                  two_paise_off_bill _ Hrun) as (_ & _ & _ & _ & _ & _ & _ & Hflag & _).
    split; [reflexivity|]. split; [reflexivity|].
    split; [reflexivity | exact (Hflag eq_refl)].
Defined.

(** Without cgst_charged and sgst_charged a charged total of 10 is
    carried as 5.0 and 5.0, and the item without quantity gets 1.0. *)
Lemma unsplit_tax_is_halved :
  unsplit_bill !! "cgst_charged" = None
  /\ unsplit_bill !! "sgst_charged" = None
  /\ exists r,
       analyze_bill no_numeric_strings empty_catalog unsplit_bill = Ok r
       /\ total_cgst_charged r = 5 /\ total_sgst_charged r = 5
       /\ total_cgst_charged r <> 0 /\ total_sgst_charged r <> 0
       /\ quantity <$> items r = [1].
Proof.
  split; [evaluate|]. split; [evaluate|].
  eexists. split; [evaluate|].
  assert (Hne : (5 : float) <> 0).
  { intros H. apply (f_equal Prim2SF) in H. vm_compute in H. discriminate H. }
  repeat split; try reflexivity; exact Hne.
Qed.

(** The same record under the amended statement. *)
Lemma absent_fields_default_witness :
  exists r,
    analyze_bill no_numeric_strings empty_catalog unsplit_bill = Ok r
    /\ discount r = 0
    /\ total_cgst_charged r = total_gst_charged r / 2
    /\ total_sgst_charged r = total_gst_charged r / 2.
Proof.
  eexists.
  match goal with |- ?P /\ _ => assert (Hrun : P) by evaluate end.
  split; [exact Hrun|].
  pose proof (absent_fields_default no_numeric_strings empty_catalog unsplit_bill
                _ Hrun) as (_ & _ & Hd & _ & _ & _ & Hc & Hs & _).
  assert (Hdiscount : unsplit_bill !! "discount" = None) by evaluate.
  assert (Hcgst : unsplit_bill !! "cgst_charged" = None) by evaluate.
  assert (Hsgst : unsplit_bill !! "sgst_charged" = None) by evaluate.
  split; [exact (Hd Hdiscount)|]. split; [exact (Hc Hcgst) | exact (Hs Hsgst)].
Defined.

(** "Cashew Curry" has a dry-fruit keyword and a restaurant keyword. *)
Lemma get_correct_gst_rate_keyword_order_witness :
  Sql.fetchone (catalog_rows restaurant_catalog)
    ("%" ++ PyStr.lower "Cashew Curry" ++ "%") = Ok None
  /\ any_keyword_in dry_fruits_keywords (PyStr.lower "Cashew Curry") = true
  /\ any_keyword_in food_items_5_percent (PyStr.lower "Cashew Curry") = true
  /\ get_correct_gst_rate restaurant_catalog (JStr "Cashew Curry")
     = (5.0, Some "08013200", Some "Dry fruits and nuts").
Proof.
  assert (Hmiss : Sql.fetchone (catalog_rows restaurant_catalog)
                    ("%" ++ PyStr.lower "Cashew Curry" ++ "%") = Ok None) by evaluate.
  assert (Hdry : any_keyword_in dry_fruits_keywords (PyStr.lower "Cashew Curry")
                 = true) by evaluate.
  split; [exact Hmiss|]. split; [exact Hdry|]. split; [evaluate|].
  exact (proj1 (proj2 (get_correct_gst_rate_keyword_order
                         (catalog_rows restaurant_catalog) "Cashew Curry" Hmiss))
           Hdry).
Defined.

(** The sample bill states 241.50; the calculated grand total is
    round(230 + 8.5, 2). *)
Lemma calculated_grand_total_rebuilt_witness :
  exists r,
    analyze_bill no_numeric_strings empty_catalog dosa_bill = Ok r
    /\ subtotal r = 230 /\ calculated_total_gst r = 8.5 /\ grand_total r = 241.5
    /\ calculated_grand_total r = 238.5
    /\ calculated_grand_total r
       = PyFloat.round2 (subtotal r + calculated_total_gst r).
Proof.
  eexists.
  match goal with |- ?P /\ _ => assert (Hrun : P) by evaluate end.
  split; [exact Hrun|].
  do 4 (split; [reflexivity|]).
  exact (proj1 (proj2 (calculated_grand_total_rebuilt no_numeric_strings
                         empty_catalog dosa_bill _ Hrun))).
Defined.

End Instances.

(** ** The catalog query as a substring search *)

Section QueryFacts.

Local Open Scope string_scope.
Local Open Scope float_scope.

Context {U : PyStr.Unicode}.

Lemma lower_char_idem (c : ascii) :
  PyStr.lower_char (PyStr.lower_char c) = PyStr.lower_char c.
Proof. destruct c as [[] [] [] [] [] [] [] []]; reflexivity. Qed.

Lemma lower_char_zero (c : ascii) :
  Ascii.eqb (PyStr.lower_char c) zero = Ascii.eqb c zero.
Proof. destruct c as [[] [] [] [] [] [] [] []]; reflexivity. Qed.

(** A plain character is its own character of the text, is neither
    wildcard nor terminator, and stays plain when lowercased. *)
Lemma plain_char_facts (c : ascii) :
  plain_char c = true ->
  Ascii.eqb c "%" = false /\ Ascii.eqb c "_" = false /\ Ascii.eqb c zero = false
  /\ Nat.ltb (nat_of_ascii c) 128 = true
  /\ Sql.is_continuation c = false
  /\ plain_char (PyStr.lower_char c) = true.
Proof.
  destruct c as [[] [] [] [] [] [] [] []]; intros H;
    first [discriminate H | repeat split; reflexivity].
Qed.

Lemma plain_lower (s : string) : plain s = true -> plain (PyStr.ascii_lower s) = true.
Proof.
  induction s as [|c s IH]; [reflexivity|]. cbn [plain PyStr.ascii_lower].
  intros H. apply andb_prop in H as [Hc Hs].
  destruct (plain_char_facts c Hc) as (_ & _ & _ & _ & _ & ->). exact (IH Hs).
Qed.

Lemma plain_is_ascii (s : string) : plain s = true -> PyStr.is_ascii s = true.
Proof.
  induction s as [|c s IH]; [reflexivity|]. cbn [plain PyStr.is_ascii].
  intros H. apply andb_prop in H as [Hc Hs].
  destruct (plain_char_facts c Hc) as (_ & _ & _ & -> & _). exact (IH Hs).
Qed.

(** On ASCII text [str.lower] is the lowercasing of A to Z. *)
Lemma lower_plain (s : string) : plain s = true -> PyStr.lower s = PyStr.ascii_lower s.
Proof. intros H. unfold PyStr.lower. rewrite (plain_is_ascii s H). reflexivity. Qed.

Lemma c_string_plain (s tail : string) :
  plain s = true -> Sql.c_string (s ++ tail) = s ++ Sql.c_string tail.
Proof.
  induction s as [|c s IH]; [reflexivity|]. cbn [plain].
  intros H. apply andb_prop in H as [Hc Hs].
  destruct (plain_char_facts c Hc) as (_ & _ & Hz & _).
  change (String c s ++ tail) with (String c (s ++ tail)).
  cbn [Sql.c_string]. rewrite Hz, (IH Hs). reflexivity.
Qed.

Lemma c_string_lower (t : string) :
  Sql.c_string (Sql.lower t) = PyStr.ascii_lower (Sql.c_string t).
Proof.
  unfold Sql.lower. induction t as [|c t IH]; [reflexivity|].
  cbn [PyStr.ascii_lower Sql.c_string]. rewrite lower_char_zero.
  destruct (Ascii.eqb c zero); [reflexivity|].
  cbn [PyStr.ascii_lower]. rewrite IH. reflexivity.
Qed.

Lemma any_run_end (skipping : bool) (t : string) :
  Sql.any_run (Sql.like "") skipping t = true.
Proof.
  revert skipping. induction t as [|c t IH]; intros skipping; [reflexivity|].
  cbn [Sql.any_run]. destruct (skipping && Sql.is_continuation c); [apply IH|].
  rewrite IH. apply orb_true_r.
Qed.

Lemma like_percent (t : string) : Sql.like "%" t = true.
Proof. apply any_run_end. Qed.

Lemma like_literal (c : ascii) (p t : string) :
  Ascii.eqb c "%" = false -> Ascii.eqb c "_" = false ->
  Sql.like (String c p) t
  = match t with
    | EmptyString => false
    | String d t' =>
        Ascii.eqb (PyStr.lower_char c) (PyStr.lower_char d) && Sql.like p t'
    end.
Proof.
  destruct c as [[] [] [] [] [] [] [] []]; intros H1 H2;
    first [discriminate H1 | discriminate H2 | reflexivity].
Qed.

Lemma like_prefix (p : string) :
  plain p = true ->
  forall t, Sql.like (PyStr.ascii_lower p ++ "%") (PyStr.ascii_lower t)
            = PyStr.startswith (PyStr.ascii_lower p) (PyStr.ascii_lower t).
Proof.
  induction p as [|c p IH]; intros Hplain t.
  - apply like_percent.
  - cbn [plain] in Hplain. apply andb_prop in Hplain as [Hc Hp].
    destruct (plain_char_facts c Hc) as (_ & _ & _ & _ & _ & Hc').
    destruct (plain_char_facts _ Hc') as (H1 & H2 & _).
    cbn [PyStr.ascii_lower].
    change (String (PyStr.lower_char c) (PyStr.ascii_lower p) ++ "%")
      with (String (PyStr.lower_char c) (PyStr.ascii_lower p ++ "%")).
    rewrite (like_literal _ _ _ H1 H2).
    destruct t as [|d t]; cbn [PyStr.ascii_lower PyStr.startswith]; [reflexivity|].
    rewrite !lower_char_idem, (IH Hp). reflexivity.
Qed.

(** A plain name never starts inside a character of the text, so trying
    it at every character is trying it at every byte. *)
Lemma startswith_continuation (p : string) (d : ascii) (t : string) :
  plain p = true -> Sql.is_continuation d = true ->
  PyStr.startswith p (String d t) || PyStr.contains p t = PyStr.contains p t.
Proof.
  intros Hplain Hd. destruct p as [|c p].
  - destruct t; reflexivity.
  - cbn [plain] in Hplain. apply andb_prop in Hplain as [Hc _].
    destruct (plain_char_facts c Hc) as (_ & _ & _ & _ & Hcont & _).
    cbn [PyStr.startswith].
    destruct (Ascii.eqb c d) eqn:Heq; [|reflexivity].
    apply Ascii.eqb_eq in Heq. subst d. rewrite Hcont in Hd. discriminate Hd.
Qed.

Lemma any_run_contains (p : string) :
  plain p = true ->
  forall t skipping,
    Sql.any_run (Sql.like (PyStr.ascii_lower p ++ "%")) skipping (PyStr.ascii_lower t)
    = PyStr.contains (PyStr.ascii_lower p) (PyStr.ascii_lower t).
Proof.
  intros Hplain.
  induction t as [|d t IH]; intros skipping.
  - pose proof (like_prefix p Hplain "") as Hend.
    cbn [PyStr.ascii_lower Sql.any_run PyStr.contains] in *.
    rewrite Hend. symmetry. apply orb_false_r.
  - cbn [PyStr.ascii_lower Sql.any_run PyStr.contains].
    destruct (skipping && Sql.is_continuation (PyStr.lower_char d)) eqn:Hskip.
    + apply andb_prop in Hskip as [_ Hd]. rewrite IH.
      symmetry. apply startswith_continuation; [apply plain_lower; exact Hplain | exact Hd].
    + pose proof (like_prefix p Hplain (String d t)) as Hhere.
      cbn [PyStr.ascii_lower] in Hhere. rewrite Hhere, IH. reflexivity.
Qed.

Lemma matches_contains (s column : string) :
  plain s = true ->
  Sql.matches ("%" ++ PyStr.lower s ++ "%") column
  = PyStr.contains (PyStr.lower s) (compared_text column).
Proof.
  intros Hplain. unfold Sql.matches, compared_text.
  rewrite (lower_plain s Hplain), c_string_lower.
  change ("%" ++ PyStr.ascii_lower s ++ "%")
    with (String "%" (PyStr.ascii_lower s ++ "%")).
  cbn [Sql.c_string]. change (Ascii.eqb "%" zero) with false. cbv iota.
  rewrite (c_string_plain _ "%" (plain_lower s Hplain)).
  change (Sql.c_string "%") with "%".
  apply (any_run_contains s Hplain).
Qed.

Lemma where_clause_contains (s : string) (row : gst_item) :
  plain s = true ->
  Sql.where_clause ("%" ++ PyStr.lower s ++ "%") row = row_contains (PyStr.lower s) row.
Proof.
  intros Hplain. unfold Sql.where_clause, row_contains.
  rewrite (matches_contains _ _ Hplain).
  destruct (row_item_category row) as [cat|]; [|reflexivity].
  rewrite (matches_contains _ _ Hplain). reflexivity.
Qed.

Lemma find_contains (s : string) (rows : list gst_item) :
  plain s = true ->
  List.find (Sql.where_clause ("%" ++ PyStr.lower s ++ "%")) rows
  = List.find (row_contains (PyStr.lower s)) rows.
Proof.
  intros Hplain. induction rows as [|row rows IH]; [reflexivity|].
  cbn [List.find]. rewrite (where_clause_contains _ _ Hplain), IH. reflexivity.
Qed.

Lemma fetchone_find (s : string) (rows : list gst_item) :
  plain s = true ->
  Sql.pattern_too_long ("%" ++ PyStr.lower s ++ "%") = false ->
  Sql.fetchone rows ("%" ++ PyStr.lower s ++ "%")
  = Ok (row_triple <$> List.find (row_contains (PyStr.lower s)) rows).
Proof.
  intros Hplain Hlen. rewrite fetchone_cases, Hlen, (find_contains _ _ Hplain).
  destruct rows; reflexivity.
Qed.

(** X1. For an ASCII item name without percent sign, underscore or zero
    byte, short enough for the pattern to stay within SQLite's limit,
    the catalog query is a substring search that ignores the case of
    ASCII letters: the resolver returns, verbatim, the triple of the
    first row whose item name or category, as the query compares it,
    contains the lowercased name, whatever keywords the name has, and
    runs the keyword cascade only when no row contains it. *)
Theorem get_correct_gst_rate_substring_search (rows : list gst_item) (s : string) :
  plain s = true ->
  Sql.pattern_too_long ("%" ++ PyStr.lower s ++ "%") = false ->
  get_correct_gst_rate (CatalogRows rows) (JStr s)
  = match List.find (row_contains (PyStr.lower s)) rows with
    | Some row => row_triple row
    | None => keyword_fallback (PyStr.lower s)
    end.
Proof.
  intros Hplain Hlen.
  rewrite get_correct_gst_rate_cases, (fetchone_find _ _ Hplain Hlen).
  destruct (List.find _ rows); reflexivity.
Qed.

End QueryFacts.

(** ** More on the analysis: items, details, success *)

Section AnalysisMore.

Local Open Scope string_scope.
Local Open Scope float_scope.

Context {U : PyStr.Unicode}.

Variable float_of_str : string -> option float.
Variable db : catalog.

Tactic Notation "bind_inv" hyp(H) "as" ident(x) ident(Hx) :=
  match type of H with
  | bind ?c _ = Ok _ => destruct c as [x|] eqn:Hx; cbn [bind] in H; [|discriminate H]
  end.

Lemma for_each_Forall2 {A B : Type} (f : A -> result B) (l : list A) (l' : list B) :
  for_each f l = Ok l' -> Forall2 (fun a b => f a = Ok b) l l'.
Proof.
  revert l'. induction l as [|x l IH]; intros l' H; cbn [for_each] in H.
  - injection H as <-. constructor.
  - destruct (f x) as [y|] eqn:Hy; cbn [bind] in H; [|discriminate H].
    destruct (for_each f l) as [ys|]; cbn [bind] in H; [|discriminate H].
    injection H as <-. constructor; [exact Hy | exact (IH ys eq_refl)].
Qed.

Lemma Forall2_for_each {A B : Type} (f : A -> result B) (l : list A) (l' : list B) :
  Forall2 (fun a b => f a = Ok b) l l' -> for_each f l = Ok l'.
Proof.
  induction 1 as [|a b l l' Hab _ IH]; [reflexivity|].
  cbn [for_each]. rewrite Hab. cbn [bind]. rewrite IH. reflexivity.
Qed.

(** The item built from an item record, field by field. *)
Lemma build_item_shape (v : json) (it : BillLineItem) :
  build_item float_of_str db v = Ok it ->
  exists d tp q up,
    v = JObj d
    /\ get_float float_of_str d "total_price" 0 = Ok tp
    /\ get_float float_of_str d "quantity" 1 = Ok q
    /\ get_float float_of_str d "unit_price" 0 = Ok up
    /\ let name := Py.dict_get d "item_name" (JStr "") in
       let resolved := get_correct_gst_rate db name in
       it = {| item_name := name;
               original_name := Py.dict_get d "original_name" name;
               quantity := q;
               unit_price := up;
               total_price := tp;
               hsn_code := resolved.1.2;
               gst_rate := Some resolved.1.1;
               cgst := Some (PyFloat.round2 (tp * resolved.1.1 / 100 / 2));
               sgst := Some (PyFloat.round2 (tp * resolved.1.1 / 100 / 2));
               category := resolved.2 |}.
Proof.
  destruct v as [| | | | |d]; try discriminate.
  unfold build_item, get_float. cbn [Py.get bind].
  intros H. exists d. cbv zeta.
  destruct (get_correct_gst_rate db _) as [[rate hsn] cat].
  bind_inv H as tp Htp. rewrite div_100 in H. cbn [bind] in H.
  bind_inv H as q Hq. bind_inv H as up Hup.
  rewrite div_2 in H. cbn [bind] in H.
  injection H as <-. exists tp, q, up. cbn [fst snd].
  repeat split; assumption.
Qed.

(** The entries of discrepancy_details of a returned result. *)
Lemma analyze_bill_details (g : dict) (r : BillAnalysisResult) :
  analyze_bill float_of_str db g = Ok r ->
  discrepancy_details r
  = ((if PyFloat.gt (discount r) 0
      then [DiscountApplied (discount r) (discount r / gross_amount r * 100)]
      else [])
     ++ (if has_discrepancy r
         then [ChargedButShouldBe (total_gst_charged r) (calculated_total_gst r);
               if PyFloat.gt (discrepancy_amount r) 0
               then OverchargedBy (abs (discrepancy_amount r))
               else UnderchargedBy (abs (discrepancy_amount r))]
              ++ ((fun item => ShouldHaveZeroGst (item_name item)) <$>
                  List.filter (fun item => rate_is_zero item
                                           && PyFloat.gt (total_gst_charged r) 0)
                    (items r))
         else []))%list.
Proof.
  unfold analyze_bill. intros H.
  bind_inv H as gross Hgross. bind_inv H as disc Hdisc.
  bind_inv H as sub Hsub. bind_inv H as raw Hraw.
  bind_inv H as its Hits. bind_inv H as validated Hvalid.
  destruct validated as [conf ws].
  bind_inv H as calculated Hcalc. destruct calculated as [[cg cc] cs].
  bind_inv H as bg Hbg. bind_inv H as bt Hbt.
  bind_inv H as det Hdet.
  rewrite div_2 in H. cbn [bind] in H. bind_inv H as tc Htc.
  bind_inv H as ts Hts.
  injection H as <-.
  cbn [discrepancy_details discount gross_amount has_discrepancy total_gst_charged
       calculated_total_gst discrepancy_amount items].
  destruct (PyFloat.gt disc 0).
  - unfold PyFloat.div in Hdet. destruct (gross =? 0); [discriminate Hdet|].
    cbn [bind] in Hdet. injection Hdet as <-. reflexivity.
  - injection Hdet as <-. reflexivity.
Qed.

(** X2. The items of a returned result are the item records of the
    extracted list, one for one and in order: every element of the list
    is an object, and the item at its place carries the name (empty
    when absent), the original name (the name when absent), the triple
    that the resolver returns for that name, and as cgst and sgst the
    same round(total_price × rate / 100 / 2, 2). *)
Theorem analyze_bill_items (g : dict) (r : BillAnalysisResult) :
  analyze_bill float_of_str db g = Ok r ->
  exists raw,
    Py.iter (Py.dict_get g "items" (JList [])) = Ok raw
    /\ length (items r) = length raw
    /\ forall (i : nat) (v : json),
         raw !! i = Some v ->
         exists d it,
           v = JObj d
           /\ items r !! i = Some it
           /\ item_name it = Py.dict_get d "item_name" (JStr "")
           /\ original_name it = Py.dict_get d "original_name" (item_name it)
           /\ (gst_rate it, hsn_code it, category it)
              = (let t := get_correct_gst_rate db (item_name it) in
                 (Some t.1.1, t.1.2, t.2))
           /\ cgst it
              = Some (PyFloat.round2
                        (total_price it * (get_correct_gst_rate db (item_name it)).1.1
                         / 100 / 2))
           /\ sgst it = cgst it.
Proof.
  intros H.
  apply analyze_bill_inv in H
    as (gross & disc & sub & raw & its & conf & ws & cg & cc & cs & bg & bt & det
        & tc & ts & _ & _ & _ & Hraw & Hits & _ & _ & _ & _ & _ & _ & _ & ->).
  cbn [items]. exists raw. split; [exact Hraw|].
  apply for_each_Forall2 in Hits.
  split; [symmetry; exact (Forall2_length _ _ _ Hits)|].
  intros i v Hi.
  destruct (Forall2_lookup_l _ _ _ _ _ Hits Hi) as (it & Hit & Hbuild).
  apply build_item_shape in Hbuild as (d & tp & q & up & -> & _ & _ & _ & ->).
  exists d. eexists. split; [reflexivity|]. split; [exact Hit|].
  cbn. repeat split; reflexivity.
Qed.

(** X3. The discrepancy details of a returned result are, in this order:
    the discount note when the discount is positive; then, when a
    discrepancy is flagged, the charged-versus-correct note, the
    overcharge note if the amount is positive and the undercharge note
    otherwise, and one note for every zero-rated item provided the
    charged GST is positive. They are empty exactly when no discrepancy
    is flagged and the discount is not positive. *)
Theorem discrepancy_details_shape (g : dict) (r : BillAnalysisResult) :
  analyze_bill float_of_str db g = Ok r ->
  discrepancy_details r
  = ((if PyFloat.gt (discount r) 0
      then [DiscountApplied (discount r) (discount r / gross_amount r * 100)]
      else [])
     ++ (if has_discrepancy r
         then [ChargedButShouldBe (total_gst_charged r) (calculated_total_gst r);
               if PyFloat.gt (discrepancy_amount r) 0
               then OverchargedBy (abs (discrepancy_amount r))
               else UnderchargedBy (abs (discrepancy_amount r))]
              ++ ((fun item => ShouldHaveZeroGst (item_name item)) <$>
                  List.filter (fun item => rate_is_zero item
                                           && PyFloat.gt (total_gst_charged r) 0)
                    (items r))
         else []))%list
  /\ (discrepancy_details r = []
      <-> has_discrepancy r = false /\ PyFloat.gt (discount r) 0 = false).
Proof.
  intros H. pose proof (analyze_bill_details g r H) as Hdet.
  split; [exact Hdet|]. rewrite Hdet.
  destruct (PyFloat.gt (discount r) 0), (has_discrepancy r); cbn;
    split; intros Hx; try discriminate Hx; try (destruct Hx; discriminate); auto.
Qed.

End AnalysisMore.

Section AnalysisSuccess.

Local Open Scope string_scope.
Local Open Scope float_scope.

Context {U : PyStr.Unicode}.

Variable float_of_str : string -> option float.
Variable db : catalog.

Ltac case_branch :=
  match goal with
  | |- context [if ?c then _ else _] =>
      lazymatch type of c with
      | bool =>
          lazymatch c with
          | context [if _ then _ else _] => fail
          | _ => destruct c; cbv iota
          end
      end
  end.

(** What [validate_extraction] can return, case by case. *)
Lemma validate_extraction_outcomes (g : dict) (its : list BillLineItem) :
  match validate_extraction float_of_str g its with
  | Ok (conf, ws) =>
      conf = fold_left (fun c w => c - penalty_of w) ws 1
      /\ (0.29999999999999993 <=? conf) = true
      /\ Nat.leb (length ws) 6 = true
      /\ (conf =? 1) = match ws with [] => true | _ => false end
      /\ (90 <=? conf * 100) = mild ws
      /\ (conf * 100 <? 90) = negb (mild ws)
  | Raise _ => True
  end.
Proof.
  unfold validate_extraction.
  destruct (get_float _ g "gross_amount" 0) as [gross|]; [|exact I].
  destruct (get_float _ g "discount" 0) as [disc|]; [|exact I].
  destruct (get_float _ g "subtotal" 0) as [sub|]; [|exact I].
  destruct (get_float _ g "total_gst_charged" 0) as [tg|]; [|exact I].
  destruct (get_float _ g "grand_total" 0) as [gt|]; [|exact I].
  cbn [bind]. cbv zeta.
  destruct (PyFloat.gt sub 0) eqn:Hpos;
    [rewrite (div_nonzero _ _ (gt_zero_nonzero _ Hpos)); cbn [bind]|];
    cbn [bind]; cbv beta iota;
    repeat case_branch; repeat split; reflexivity.
Qed.

(** X5. The confidence that [validate_extraction] returns is 1.0 minus
    the penalties of its warnings, never lower than 0.29999999999999993:
    the clamp to [0, 1] never changes it. There are at most six warnings,
    and the confidence is 1.0 exactly when there is none. *)
Theorem validate_extraction_floor (g : dict) (its : list BillLineItem)
    (conf : float) (ws : list warning) :
  validate_extraction float_of_str g its = Ok (conf, ws) ->
  conf = fold_left (fun c w => c - penalty_of w) ws 1
  /\ (0.29999999999999993 <=? conf) = true
  /\ length ws <= 6
  /\ ((conf =? 1) = true <-> ws = []).
Proof.
  intros H. pose proof (validate_extraction_outcomes g its) as Hout.
  rewrite H in Hout. destruct Hout as (Hfold & Hfloor & Hlen & Hone & _).
  split; [exact Hfold|]. split; [exact Hfloor|].
  split; [apply Nat.leb_le; exact Hlen|].
  rewrite Hone. destruct ws; split; intros Hx; first [reflexivity | discriminate Hx].
Qed.

Lemma weighted_rate_loop_returns (its : list BillLineItem) (total acc : float) :
  (total =? 0) = false -> exists w, weighted_rate_loop its total acc = Ok w.
Proof.
  intros Htotal. revert acc.
  induction its as [|it its IH]; intros acc; cbn [weighted_rate_loop].
  - eexists. reflexivity.
  - destruct (gst_rate it) as [rate|]; [|apply IH].
    rewrite (div_nonzero _ _ Htotal). cbn [bind]. apply IH.
Qed.

(** X6. [calculate_correct_gst] returns for every list of items, also
    items without a rate or with a total of any sign, and for every
    subtotal: no division by zero, and the cgst and sgst it returns are
    the same number. *)
Theorem calculate_correct_gst_total (its : list BillLineItem) (S : float) :
  exists total_gst half,
    calculate_correct_gst its S = Ok (total_gst, half, half).
Proof.
  unfold calculate_correct_gst.
  destruct (PyFloat.sum (total_price <$> its) =? 0) eqn:Hz.
  - exists 0, 0. reflexivity.
  - destruct (weighted_rate_loop_returns its _ 0 Hz) as [w ->]. cbn [bind].
    rewrite div_100. cbn [bind]. rewrite div_2. cbn [bind].
    eexists _, _. reflexivity.
Qed.

Lemma analyze_bill_returns_when (g : dict) :
  (forall key, In key numeric_keys -> exists x, get_float float_of_str g key 0 = Ok x) ->
  (exists raw its,
     Py.iter (Py.dict_get g "items" (JList [])) = Ok raw
     /\ for_each (build_item float_of_str db) raw = Ok its) ->
  (exists bg tc ts,
     get_float float_of_str g "total_gst_charged" 0 = Ok bg
     /\ get_float float_of_str g "cgst_charged" (bg / 2) = Ok tc
     /\ get_float float_of_str g "sgst_charged" (bg / 2) = Ok ts) ->
  (forall disc gross,
     get_float float_of_str g "discount" 0 = Ok disc ->
     get_float float_of_str g "gross_amount" 0 = Ok gross ->
     PyFloat.gt disc 0 = true -> (gross =? 0) = false) ->
  exists r, analyze_bill float_of_str db g = Ok r.
Proof.
  intros Hkeys (raw & its & Hraw & Hits) (bg & tc & ts & Hbg & Htc & Hts) Hguard.
  destruct (validate_extraction_returns float_of_str g its Hkeys) as [[conf ws] Hvalid].
  unfold analyze_bill.
  destruct (Hkeys "gross_amount") as [gross Hgross]; [cbn; intuition|].
  destruct (Hkeys "discount") as [disc Hdisc]; [cbn; intuition|].
  destruct (Hkeys "subtotal") as [sub Hsub]; [cbn; intuition|].
  destruct (Hkeys "grand_total") as [bt Hbt]; [cbn; intuition|].
  destruct (calculate_correct_gst_returns its sub
              (built_items_have_rates float_of_str db _ _ Hits))
    as [[[cg cc] cs] Hcalc].
  rewrite Hgross, Hdisc, Hsub. cbn [bind].
  rewrite Hraw. cbn [bind]. rewrite Hits. cbn [bind].
  rewrite Hvalid. cbn [bind]. rewrite Hcalc. cbn [bind].
  rewrite Hbg, Hbt. cbn [bind].
  destruct (PyFloat.gt disc 0) eqn:Hpos;
    [rewrite (div_nonzero _ _ (Hguard disc gross Hdisc Hgross Hpos))|];
    cbn [bind]; rewrite div_2; cbn [bind]; rewrite Htc; cbn [bind];
    rewrite Hts; cbn [bind]; eexists; reflexivity.
Qed.

(** X4. [analyze_bill] returns a result exactly when the five amounts
    of the record convert to floats, the items can be iterated and every
    one of them builds, cgst_charged and sgst_charged (or their default,
    half of the charged total) convert, and a positive discount does not
    come with a gross amount equal to zero. *)
Theorem analyze_bill_returns_iff (g : dict) :
  (exists r, analyze_bill float_of_str db g = Ok r)
  <-> (forall key, In key numeric_keys ->
                   exists x, get_float float_of_str g key 0 = Ok x)
      /\ (exists raw its,
            Py.iter (Py.dict_get g "items" (JList [])) = Ok raw
            /\ for_each (build_item float_of_str db) raw = Ok its)
      /\ (exists bg tc ts,
            get_float float_of_str g "total_gst_charged" 0 = Ok bg
            /\ get_float float_of_str g "cgst_charged" (bg / 2) = Ok tc
            /\ get_float float_of_str g "sgst_charged" (bg / 2) = Ok ts)
      /\ (forall disc gross,
            get_float float_of_str g "discount" 0 = Ok disc ->
            get_float float_of_str g "gross_amount" 0 = Ok gross ->
            PyFloat.gt disc 0 = true -> (gross =? 0) = false).
Proof.
  split.
  - intros [r H].
    apply analyze_bill_inv in H
      as (gross & disc & sub & raw & its & conf & ws & cg & cc & cs & bg & bt & det
          & tc & ts & Hgross & Hdisc & Hsub & Hraw & Hits & _ & _ & Hbg & Hbt & Hdiv
          & Htc & Hts & _).
    split; [|split; [|split]].
    + intros key Hin. cbn in Hin.
      destruct Hin as [<-|[<-|[<-|[<-|[<-|[]]]]]]; eexists; eassumption.
    + exists raw, its. split; assumption.
    + exists bg, tc, ts. repeat split; assumption.
    + intros disc' gross' Hdisc' Hgross' Hpos.
      rewrite Hdisc in Hdisc'. injection Hdisc' as <-.
      rewrite Hgross in Hgross'. injection Hgross' as <-.
      destruct (Hdiv Hpos) as [q Hq]. unfold PyFloat.div in Hq.
      destruct (gross =? 0); [discriminate Hq | reflexivity].
  - intros (Hkeys & Hitems & Hsplit & Hguard).
    exact (analyze_bill_returns_when g Hkeys Hitems Hsplit Hguard).
Qed.

End AnalysisSuccess.

(** ** The printed report *)

Section ReportFacts.

Import Report.
Local Open Scope string_scope.
Local Open Scope float_scope.

Context {U : PyStr.Unicode}.










End ReportFacts.

(** ** Serialization *)

Section ToDictFacts.

Local Open Scope string_scope.

Context {U : PyStr.Unicode}.

Variable float_of_str : string -> option float.
Variable db : catalog.

Lemma or_empty_id {A : Type} (l : list A) : or_empty (Some l) = l.
Proof. destruct l; reflexivity. Qed.

Lemma insert_fresh_inv (key : string) (v w : pyval) (m m' : gmap string pyval) :
  m !! key = None -> m' !! key = None ->
  <[key := v]> m = <[key := w]> m' -> v = w /\ m = m'.
Proof.
  intros Hm Hm' H. split.
  - pose proof (f_equal (fun d : gmap string pyval => d !! key) H) as Hk.
    cbv beta in Hk. rewrite !lookup_insert_eq in Hk. injection Hk as Hk. exact Hk.
  - pose proof (f_equal (delete key) H) as Hd.
    rewrite !delete_insert_id in Hd by assumption. exact Hd.
Qed.

Ltac absent := rewrite ?lookup_insert_ne by discriminate; apply lookup_empty.

(** Takes the outermost insertion off both sides of [H]. *)
Ltac peel H :=
  let Hv := fresh "Hv" in
  apply insert_fresh_inv in H as [Hv H]; [injection Hv as Hv | absent | absent].

Lemma BillLineItem_to_dict_inj (a b : BillLineItem) :
  BillLineItem_to_dict a = BillLineItem_to_dict b -> a = b.
Proof.
  destruct a, b. unfold BillLineItem_to_dict. cbn. intros H.
  do 10 peel H. clear H. subst. reflexivity.
Qed.

Lemma PDict_inj (d d' : gmap string pyval) : PDict d = PDict d' -> d = d'.
Proof.
  intros H.
  exact (f_equal (fun v => match v with PDict m => m | _ => d end) H).
Qed.

Lemma items_to_dict_inj (l l' : list BillLineItem) :
  (fun item => PDict (BillLineItem_to_dict item)) <$> l
  = (fun item => PDict (BillLineItem_to_dict item)) <$> l' ->
  l = l'.
Proof.
  revert l'. induction l as [|a l IH]; intros [|b l'] H; try discriminate H.
  - reflexivity.
  - rewrite !fmap_cons in H.
    pose proof (f_equal (fun vs => match vs with v :: _ => v | [] => PBool true end) H)
      as Hab.
    pose proof (f_equal (fun vs => match vs with _ :: t => t | [] => [] end) H) as Hl.
    cbv beta iota in Hab, Hl.
    f_equal; [apply BillLineItem_to_dict_inj, PDict_inj; exact Hab | apply IH; exact Hl].
Qed.

Lemma BillAnalysisResult_to_dict_inj (r r' : BillAnalysisResult) :
  BillAnalysisResult_to_dict r = BillAnalysisResult_to_dict r' -> r = r'.
Proof.
  destruct r, r'. unfold BillAnalysisResult_to_dict.
  rewrite !or_empty_id. cbn. intros H.
  do 4 peel H.
  apply insert_fresh_inv in H as [Hitems H]; [|absent|absent].
  injection Hitems as Hitems. apply items_to_dict_inj in Hitems.
  do 3 peel H.
  apply insert_fresh_inv in H as [Hcharges H]; [|absent|absent].
  apply PDict_inj in Hcharges. do 4 peel Hcharges.
  apply insert_fresh_inv in H as [Hcalc H]; [|absent|absent].
  apply PDict_inj in Hcalc. do 4 peel Hcalc.
  apply insert_fresh_inv in H as [Hdisc H]; [|absent|absent].
  apply PDict_inj in Hdisc. do 3 peel Hdisc.
  do 2 peel H.
  clear H Hcharges Hcalc Hdisc. subst. reflexivity.
Qed.

(** X9. [to_dict] loses nothing of what [analyze_bill] returns: two
    returned results with the same dictionary are the same result,
    items included. The dictionary of a returned result has the thirteen
    keys of the method, with the charged amounts under bill_charges, the
    calculated ones under correct_calculation, found and the list of
    details under discrepancy, and the list of warnings. The lists are
    written through [x or []], which writes an attribute left at None as
    it writes the empty list; a returned result holds lists. *)
Theorem to_dict_injective (g g' : dict) (r r' : BillAnalysisResult) :
  analyze_bill float_of_str db g = Ok r ->
  analyze_bill float_of_str db g' = Ok r' ->
  (BillAnalysisResult_to_dict r = BillAnalysisResult_to_dict r' -> r = r')
  /\ dom (BillAnalysisResult_to_dict r)
     = list_to_set ["bill_number"; "restaurant_name"; "date"; "gstin"; "items";
                    "gross_amount"; "discount"; "subtotal"; "bill_charges";
                    "correct_calculation"; "discrepancy"; "confidence_score";
                    "warnings"]
  /\ (exists charges calculation discrepancy,
        BillAnalysisResult_to_dict r !! "bill_charges" = Some (PDict charges)
        /\ BillAnalysisResult_to_dict r !! "correct_calculation"
           = Some (PDict calculation)
        /\ BillAnalysisResult_to_dict r !! "discrepancy" = Some (PDict discrepancy)
        /\ charges !! "grand_total" = Some (PFloat (grand_total r))
        /\ calculation !! "grand_total" = Some (PFloat (calculated_grand_total r))
        /\ discrepancy !! "found" = Some (PBool (has_discrepancy r))
        /\ discrepancy !! "details" = Some (PDetails (discrepancy_details r)))
  /\ BillAnalysisResult_to_dict r !! "warnings" = Some (PWarnings (warnings r))
  /\ or_empty (A := detail) None = or_empty (Some [])
  /\ or_empty (A := warning) None = or_empty (Some []).
Proof.
  intros _ _.
  split; [apply BillAnalysisResult_to_dict_inj|]. split; [|split; [|split]].
  - unfold BillAnalysisResult_to_dict. rewrite !dom_insert_L, dom_empty_L.
    cbn [list_to_set foldr]. set_solver.
  - eexists _, _, _. unfold BillAnalysisResult_to_dict.
    repeat split;
      rewrite ?lookup_insert_ne by discriminate; rewrite lookup_insert_eq;
      rewrite ?or_empty_id; reflexivity.
  - unfold BillAnalysisResult_to_dict.
    rewrite ?lookup_insert_ne by discriminate. rewrite lookup_insert_eq, or_empty_id.
    reflexivity.
  - split; reflexivity.
Qed.

End ToDictFacts.

(** ** The service endpoints *)

Section ServiceFacts.

Local Open Scope string_scope.

Context {U : PyStr.Unicode}.

Variable float_of_str : string -> option float.
Variable host : Host.

Lemma init_key_nonempty (analyzer : GeminiGSTAnalyzer) :
  init host (env_api_key host) = Ok analyzer ->
  exists k, nonempty (env_api_key host) = Some k.
Proof.
  unfold init. destruct (nonempty (env_api_key host)) as [k|] eqn:Hk.
  - intros _. exists k. reflexivity.
  - rewrite Hk. discriminate.
Qed.

Lemma api_analyze_bill_try_returns (bill_text : string) (body : gmap string pyval) :
  api_analyze_bill_try float_of_str host bill_text = Returns body
  <-> module_importable host = true
      /\ exists analyzer r,
           init host (env_api_key host) = Ok analyzer
           /\ analyze_bill_method float_of_str host analyzer (Some bill_text) None None
              = Ok r
           /\ body = BillAnalysisResult_to_dict r.
Proof.
  unfold api_analyze_bill_try. split.
  - destruct (module_importable host); [|discriminate]. cbn [negb].
    destruct (bool_decide _); [|discriminate]. cbn [negb].
    destruct (init host (env_api_key host)) as [analyzer|] eqn:Hinit; [|discriminate].
    cbn [lift].
    destruct (analyze_bill_method _ _ _ _ _ _) as [r|] eqn:Hrun; [|discriminate].
    cbn [lift]. intros [= <-]. split; [reflexivity|].
    exists analyzer, r. repeat split; assumption.
  - intros (-> & analyzer & r & Hinit & Hrun & ->). cbn [negb].
    destruct (init_key_nonempty analyzer Hinit) as [k Hk].
    rewrite bool_decide_eq_true_2 by (rewrite Hk; eexists; reflexivity).
    cbn [negb]. rewrite Hinit. cbn [lift]. rewrite Hrun. reflexivity.
Qed.

Lemma api_analyze_bill_cases (bill_text : string) :
  match api_analyze_bill float_of_str host bill_text with
  | Returns body => api_analyze_bill_try float_of_str host bill_text = Returns body
  | Throws x => x = HTTPException 500
  end.
Proof.
  unfold api_analyze_bill.
  destruct (api_analyze_bill_try float_of_str host bill_text) as [body|x] eqn:Htry.
  - reflexivity.
  - destruct x as [e| |status]; try reflexivity.
    exfalso. revert Htry. unfold api_analyze_bill_try, lift.
    repeat match goal with
           | |- context [if ?c then _ else _] => destruct c
           | |- context [match ?c with Ok _ => _ | Raise _ => _ end] => destruct c
           end; discriminate.
Qed.

(** X10. POST /gst/analyze-bill answers with the dictionary of the
    result exactly when the module is importable, the analyzer is
    constructed from the key of the environment and the analysis of the
    text returns. Every failure leaves it as HTTP 500: also a missing
    module and a missing key, for which its code raises 503 inside the
    [try] whose handler turns any exception into 500. *)
Theorem api_analyze_bill_statuses (bill_text : string) :
  (forall body,
     api_analyze_bill float_of_str host bill_text = Returns body
     <-> module_importable host = true
         /\ exists analyzer r,
              init host (env_api_key host) = Ok analyzer
              /\ analyze_bill_method float_of_str host analyzer (Some bill_text)
                   None None = Ok r
              /\ body = BillAnalysisResult_to_dict r)
  /\ (forall x, api_analyze_bill float_of_str host bill_text = Throws x ->
                x = HTTPException 500)
  /\ (module_importable host = false \/ nonempty (env_api_key host) = None ->
      api_analyze_bill float_of_str host bill_text = Throws (HTTPException 500)).
Proof.
  pose proof (api_analyze_bill_cases bill_text) as Hcases.
  split; [|split].
  - intros body. rewrite <- api_analyze_bill_try_returns.
    unfold api_analyze_bill in *.
    destruct (api_analyze_bill_try float_of_str host bill_text) as [b|x].
    + reflexivity.
    + split; [|discriminate]. destruct x as [e| |status]; discriminate.
  - intros x Hx. rewrite Hx in Hcases. exact Hcases.
  - intros Hmissing. unfold api_analyze_bill, api_analyze_bill_try.
    destruct Hmissing as [-> | Hkey]; [reflexivity|].
    destruct (module_importable host); [|reflexivity]. cbn [negb].
    rewrite bool_decide_eq_false_2; [reflexivity|].
    rewrite Hkey. intros [k Hk]. discriminate Hk.
Qed.


(** X12. When Gemini answers with a record whose discount is positive
    and whose gross amount is zero or absent, POST /gst/analyze-bill
    answers HTTP 500: the division of the discount note raises and the
    endpoint does not return a result. *)
Theorem api_analyze_bill_discount_without_gross (bill_text : string) (d : dict)
    (disc gross : float) :
  analyze_bill_with_gemini host bill_text = Ok (JObj d) ->
  get_float float_of_str d "discount" 0 = Ok disc ->
  get_float float_of_str d "gross_amount" 0 = Ok gross ->
  PyFloat.gt disc 0 = true ->
  (gross =? 0)%float = true ->
  api_analyze_bill float_of_str host bill_text = Throws (HTTPException 500).
Proof.
  intros Hreply Hdisc Hgross Hpos Hzero.
  pose proof (api_analyze_bill_cases bill_text) as Hcases.
  destruct (api_analyze_bill float_of_str host bill_text) as [body|x].
  - exfalso. apply api_analyze_bill_try_returns in Hcases
      as (_ & analyzer & r & _ & Hrun & _).
    unfold analyze_bill_method in Hrun. cbn [bind] in Hrun.
    rewrite Hreply in Hrun. cbn [bind] in Hrun.
    exact (positive_discount_zero_gross float_of_str (db_path analyzer) d disc gross
             Hdisc Hgross Hpos Hzero r Hrun).
  - rewrite Hcases. reflexivity.
Qed.

End ServiceFacts.

(** ** Items without a name *)

Section NamelessItems.

Local Open Scope string_scope.
Local Open Scope float_scope.

Context {U : PyStr.Unicode}.

Lemma contains_empty (s : string) : PyStr.contains "" s = true.
Proof. destruct s; reflexivity. Qed.

Lemma empty_name_first_row (row : gst_item) (rest : list gst_item) :
  get_correct_gst_rate (CatalogRows (row :: rest)) (JStr "") = row_triple row.
Proof.
  rewrite get_correct_gst_rate_cases, (fetchone_find "" _ eq_refl eq_refl).
  cbn [List.find fmap option_fmap option_map]. unfold row_contains at 1.
  change (PyStr.lower "") with "". rewrite contains_empty. reflexivity.
Qed.

(** X13. An empty item name, which is also what an item record without
    item_name gets, matches every row of the catalog: with a catalog
    that has rows the resolver returns the triple of the first row, and
    the item built from such a record carries that rate, code and
    category; with an empty catalog it returns the default (5.0, null,
    "Unknown (default 5%)"). *)
Theorem empty_item_name_resolution (row : gst_item) (rest : list gst_item) :
  get_correct_gst_rate (CatalogRows (row :: rest)) (JStr "") = row_triple row
  /\ get_correct_gst_rate (CatalogRows []) (JStr "")
     = (5.0, None, Some "Unknown (default 5%)")
  /\ forall float_of_str d it,
       d !! "item_name" = None ->
       build_item float_of_str (CatalogRows (row :: rest)) (JObj d) = Ok it ->
       item_name it = JStr ""
       /\ gst_rate it = Some (row_gst_rate row)
       /\ hsn_code it = row_hsn_code row
       /\ category it = row_item_category row.
Proof.
  split; [apply empty_name_first_row|]. split; [reflexivity|].
  intros float_of_str d it Habsent Hbuild.
  apply build_item_shape in Hbuild as (d' & tp & q & up & [= <-] & _ & _ & _ & ->).
  unfold Py.dict_get. rewrite Habsent. cbn [default item_name gst_rate hsn_code category].
  rewrite empty_name_first_row. repeat split; reflexivity.
Qed.

End NamelessItems.

(** ** The catalog and the analysis *)

Section CatalogAndAnalysis.

Local Open Scope string_scope.
Local Open Scope float_scope.

Context {U : PyStr.Unicode}.

Variable float_of_str : string -> option float.

(** X14. An item name that is not a string (null, a number, a list) does
    not make the resolver fail: the attempt to lowercase it raises inside
    the [try], and the handler returns (5.0, null, "Unknown") whatever
    the catalog holds. *)
Theorem non_string_name_resolution (db : catalog) (v : json) :
  (forall s, v <> JStr s) ->
  get_correct_gst_rate db v = (5.0, None, Some "Unknown").
Proof.
  intros Hv. unfold get_correct_gst_rate, get_correct_gst_rate_try.
  destruct db as [|rows]; [reflexivity|]. cbn [connect bind].
  destruct v as [| | |s| |]; try reflexivity.
  exfalso. exact (Hv s eq_refl).
Qed.

Lemma validate_extraction_prices (g : dict) (its its' : list BillLineItem) :
  total_price <$> its = total_price <$> its' ->
  validate_extraction float_of_str g its = validate_extraction float_of_str g its'.
Proof. intros H. unfold validate_extraction. rewrite H. reflexivity. Qed.

Lemma built_prices (db db' : catalog) (raw : list json) (its its' : list BillLineItem) :
  for_each (build_item float_of_str db) raw = Ok its ->
  for_each (build_item float_of_str db') raw = Ok its' ->
  total_price <$> its = total_price <$> its'.
Proof.
  revert its its'. induction raw as [|v raw IH]; intros its its' H H'.
  - cbn in H, H'. injection H as <-. injection H' as <-. reflexivity.
  - cbn [for_each] in H, H'.
    destruct (build_item float_of_str db v) as [it|] eqn:Hit;
      cbn [bind] in H; [|discriminate H].
    destruct (for_each (build_item float_of_str db) raw) as [l|];
      cbn [bind] in H; [|discriminate H].
    destruct (build_item float_of_str db' v) as [it'|] eqn:Hit';
      cbn [bind] in H'; [|discriminate H'].
    destruct (for_each (build_item float_of_str db') raw) as [l'|];
      cbn [bind] in H'; [|discriminate H'].
    injection H as <-. injection H' as <-.
    rewrite !fmap_cons. f_equal; [|exact (IH l l' eq_refl eq_refl)].
    apply build_item_shape in Hit as (d & tp & q & up & -> & Htp & _ & _ & ->).
    apply build_item_shape in Hit' as (d' & tp' & q' & up' & [= <-] & Htp' & _ & _ & ->).
    cbn [total_price]. rewrite Htp in Htp'. injection Htp' as <-. reflexivity.
Qed.

(** X15. The confidence score and the warnings of a result do not depend
    on the catalog: analysed with two catalogs, a record gets the same
    confidence and the same warnings, as well as the same item prices,
    so a high confidence says nothing about the rates that were
    resolved. *)
Theorem confidence_independent_of_catalog (db db' : catalog) (g : dict)
    (r r' : BillAnalysisResult) :
  analyze_bill float_of_str db g = Ok r ->
  analyze_bill float_of_str db' g = Ok r' ->
  confidence_score r = confidence_score r'
  /\ warnings r = warnings r'
  /\ total_price <$> items r = total_price <$> items r'.
Proof.
  intros H H'.
  apply analyze_bill_inv in H
    as (gross & disc & sub & raw & its & conf & ws & cg & cc & cs & bg & bt & det
        & tc & ts & _ & _ & _ & Hraw & Hits & Hvalid & _ & _ & _ & _ & _ & _ & ->).
  apply analyze_bill_inv in H'
    as (gross' & disc' & sub' & raw' & its' & conf' & ws' & cg' & cc' & cs' & bg'
        & bt' & det' & tc' & ts' & _ & _ & _ & Hraw' & Hits' & Hvalid' & _ & _ & _
        & _ & _ & _ & ->).
  cbn [confidence_score warnings items].
  rewrite Hraw in Hraw'. injection Hraw' as <-.
  pose proof (built_prices _ _ _ _ _ Hits Hits') as Hprices.
  rewrite (validate_extraction_prices g its its' Hprices) in Hvalid.
  rewrite Hvalid in Hvalid'. injection Hvalid' as <- <-.
  split; [reflexivity|]. split; [reflexivity | exact Hprices].
Qed.

(** X16. With the catalog unavailable the analysis still returns what it
    returns otherwise, and every item of the result is rated 5.0 with no
    code and the category "Unknown": no keyword is ever consulted. *)
Theorem catalog_unavailable_items (g : dict) (r : BillAnalysisResult) :
  analyze_bill float_of_str CatalogUnavailable g = Ok r ->
  Forall (fun it => gst_rate it = Some 5.0
                    /\ hsn_code it = None
                    /\ category it = Some "Unknown") (items r).
Proof.
  intros H.
  apply analyze_bill_inv in H
    as (gross & disc & sub & raw & its & conf & ws & cg & cc & cs & bg & bt & det
        & tc & ts & _ & _ & _ & _ & Hits & _ & _ & _ & _ & _ & _ & _ & ->).
  cbn [items]. apply for_each_Forall in Hits.
  eapply Forall_impl; [exact Hits|].
  intros it [v Hbuild].
  apply build_item_shape in Hbuild as (d & tp & q & up & _ & _ & _ & _ & ->).
  cbn. repeat split; reflexivity.
Qed.

End CatalogAndAnalysis.

(** ** The further properties on the sample records *)

Section MoreInstances.

Import Samples ServiceSamples Report.
Local Open Scope string_scope.
Local Open Scope float_scope.

#[local] Existing Instance ascii_text.

Ltac evaluate := vm_compute; reflexivity.

(** The catalog row for phones is returned for "Mobile", not the 18
    percent of the electronics keywords. *)
Lemma get_correct_gst_rate_substring_search_witness :
  plain "Mobile" = true
  /\ Sql.pattern_too_long ("%" ++ PyStr.lower "Mobile" ++ "%") = false
  /\ get_correct_gst_rate (CatalogRows mixed_catalog) (JStr "Mobile")
     = (12, Some "8517", Some "Electronics").
Proof.
  assert (Hplain : plain "Mobile" = true) by evaluate.
  assert (Hlen : Sql.pattern_too_long ("%" ++ PyStr.lower "Mobile" ++ "%") = false)
    by evaluate.
  split; [exact Hplain|]. split; [exact Hlen|].
  rewrite (get_correct_gst_rate_substring_search mixed_catalog "Mobile" Hplain Hlen).
  evaluate.
Defined.

(** The three items of the sample bill. *)
Lemma analyze_bill_items_witness :
  exists r raw,
    analyze_bill no_numeric_strings empty_catalog dosa_bill = Ok r
    /\ Py.iter (Py.dict_get dosa_bill "items" (JList [])) = Ok raw
    /\ length (items r) = length raw
    /\ length raw = 3%nat.
Proof.
  eexists.
  match goal with
  | |- exists raw, ?P /\ _ => assert (Hrun : P) by evaluate
  end.
  destruct (analyze_bill_items no_numeric_strings empty_catalog dosa_bill _ Hrun)
    as (raw & Hraw & Hlen & _).
  exists raw. split; [exact Hrun|]. split; [exact Hraw|]. split; [exact Hlen|].
  rewrite <- Hlen. evaluate.
Defined.

(** The details of the sample bill are not empty: a discrepancy is
    flagged. *)
Lemma discrepancy_details_shape_witness :
  exists r,
    analyze_bill no_numeric_strings empty_catalog dosa_bill = Ok r
    /\ has_discrepancy r = true
    /\ (discrepancy_details r = []
        <-> has_discrepancy r = false /\ PyFloat.gt (discount r) 0 = false).
Proof.
  eexists.
  match goal with |- ?P /\ _ => assert (Hrun : P) by evaluate end.
  split; [exact Hrun|]. split; [reflexivity|].
  exact (proj2 (discrepancy_details_shape no_numeric_strings empty_catalog
                  dosa_bill _ Hrun)).
Defined.

(** A record without store name and bill number. *)
Lemma validate_extraction_floor_witness :
  validate_extraction no_numeric_strings one_paisa_bill []
  = Ok (0.8999999999999999, [StoreNameNotFound; BillNumberNotFound])
  /\ (0.29999999999999993 <=? 0.8999999999999999) = true.
Proof.
  assert (H : validate_extraction no_numeric_strings one_paisa_bill []
              = Ok (0.8999999999999999, [StoreNameNotFound; BillNumberNotFound]))
    by evaluate.
  split; [exact H|].
  exact (proj1 (proj2 (validate_extraction_floor no_numeric_strings one_paisa_bill
                         [] _ _ H))).
Defined.


(** Gemini answers with the record that has a discount and no gross
    amount. *)
Lemma api_analyze_bill_discount_without_gross_witness :
  analyze_bill_with_gemini (answering (JObj discounted_bill)) "bill" = Ok (JObj discounted_bill)
  /\ get_float no_numeric_strings discounted_bill "discount" 0 = Ok 20
  /\ get_float no_numeric_strings discounted_bill "gross_amount" 0 = Ok 0
  /\ api_analyze_bill no_numeric_strings (answering (JObj discounted_bill)) "bill"
     = Throws (HTTPException 500).
Proof.
  assert (Hdisc : get_float no_numeric_strings discounted_bill "discount" 0 = Ok 20)
    by evaluate.
  assert (Hgross : get_float no_numeric_strings discounted_bill "gross_amount" 0 = Ok 0)
    by evaluate.
  split; [reflexivity|]. split; [exact Hdisc|]. split; [exact Hgross|].
  exact (api_analyze_bill_discount_without_gross no_numeric_strings
           (answering (JObj discounted_bill)) "bill" discounted_bill 20 0
           eq_refl Hdisc Hgross eq_refl eq_refl).
Defined.

(** A null item name. *)
Lemma non_string_name_resolution_witness :
  (forall s, JNull <> JStr s)
  /\ get_correct_gst_rate restaurant_catalog JNull = (5.0, None, Some "Unknown").
Proof.
  assert (H : forall s, JNull <> JStr s) by (intros s Hs; discriminate Hs).
  split; [exact H|].
  exact (non_string_name_resolution restaurant_catalog JNull H).
Defined.

(** The sample bill with the keyword rates and with the catalog
    unavailable: other rates, the same confidence. *)
Lemma confidence_independent_of_catalog_witness :
  exists r r',
    analyze_bill no_numeric_strings empty_catalog dosa_bill = Ok r
    /\ analyze_bill no_numeric_strings CatalogUnavailable dosa_bill = Ok r'
    /\ calculated_total_gst r = 8.5
    /\ calculated_total_gst r' = 11.5
    /\ confidence_score r = confidence_score r'
    /\ warnings r = warnings r'.
Proof.
  eexists. eexists.
  match goal with
  | |- ?P /\ ?Q /\ _ =>
      assert (Hrun : P) by evaluate; assert (Hrun' : Q) by evaluate
  end.
  destruct (confidence_independent_of_catalog no_numeric_strings empty_catalog
              CatalogUnavailable dosa_bill _ _ Hrun Hrun') as (Hconf & Hws & _).
  split; [exact Hrun|]. split; [exact Hrun'|].
  split; [reflexivity|]. split; [reflexivity|].
  split; [exact Hconf | exact Hws].
Defined.

(** The sample bill with the catalog unavailable. *)
Lemma catalog_unavailable_items_witness :
  exists r,
    analyze_bill no_numeric_strings CatalogUnavailable dosa_bill = Ok r
    /\ Forall (fun it => gst_rate it = Some 5.0
                         /\ hsn_code it = None
                         /\ category it = Some "Unknown") (items r).
Proof.
  eexists.
  match goal with |- ?P /\ _ => assert (Hrun : P) by evaluate end.
  split; [exact Hrun|].
  exact (catalog_unavailable_items no_numeric_strings dosa_bill _ Hrun).
Defined.

(** The sample bill and the bill charged a paisa too much: results with
    different items, and different dictionaries. *)
Lemma to_dict_injective_witness :
  exists r r',
    analyze_bill no_numeric_strings empty_catalog dosa_bill = Ok r
    /\ analyze_bill no_numeric_strings empty_catalog paisa_off_bill = Ok r'
    /\ length (items r) <> length (items r')
    /\ BillAnalysisResult_to_dict r <> BillAnalysisResult_to_dict r'.
Proof.
  eexists. eexists.
  match goal with
  | |- ?P /\ ?Q /\ _ =>
      assert (Hrun : P) by evaluate; assert (Hrun' : Q) by evaluate
  end.
  destruct (to_dict_injective no_numeric_strings empty_catalog dosa_bill
              paisa_off_bill _ _ Hrun Hrun') as (Hinj & _).
  split; [exact Hrun|]. split; [exact Hrun'|].
  match goal with
  | |- ?P /\ _ => assert (Hlen : P) by (cbn; intros H; discriminate H)
  end.
  split; [exact Hlen|].
  intros H. apply Hlen. apply Hinj in H.
  exact (f_equal (fun x => length (items x)) H).
Defined.


End MoreInstances.
